(** * mikrotik_command: a shallow embedding of library/mikrotik_command.py

    The module is a Python 2 script.  Its pure string manipulation is
    embedded as functions on [string]; its dictionaries ([SHELLDEFS],
    [module.params], [rosdev]) as [gmap string pyval]; and its effects
    (the SSH client, the local file system, [print], [sys.exit],
    [module.fail_json], [module.exit_json]) as a state-and-exit monad over
    the chronological list of observable events, with the outside world
    given as a record of oracles that may depend on the events so far. *)

From Stdlib Require Import ZArith Ascii.
From stdpp Require Import gmap strings list fin_maps pretty.

Local Open Scope Z_scope.

#[local] Arguments String.append !_ _ / : simpl nomatch.

(** ** Python byte strings *)

Module PyStr.

Definition chr (n : nat) : ascii := ascii_of_nat n.

Definition LF : ascii := chr 10.
Definition CR : ascii := chr 13.
Definition DQ : ascii := chr 34.

Definition str1 (c : ascii) : string := String c EmptyString.

(** [sub in s] *)
Fixpoint str_in (sub s : string) : bool :=
  String.prefix sub s ||
  match s with
  | EmptyString => false
  | String _ r => str_in sub r
  end.

(** [s.startswith(p)] *)
Definition startswith (s p : string) : bool := String.prefix p s.

(** [c.isspace()] for a byte in the C locale *)
Definition isspace (c : ascii) : bool :=
  let n := nat_of_ascii c in
  (n =? 32)%nat || ((9 <=? n)%nat && (n <=? 13)%nat).

Definition is_empty (s : string) : bool :=
  match s with EmptyString => true | _ => false end.

(** [s.rstrip()] *)
Fixpoint rstrip (s : string) : string :=
  match s with
  | EmptyString => EmptyString
  | String c r =>
      let r' := rstrip r in
      if is_empty r' && isspace c then EmptyString else String c r'
  end.

(** [s.lstrip()] *)
Fixpoint lstrip (s : string) : string :=
  match s with
  | EmptyString => EmptyString
  | String c r => if isspace c then lstrip r else s
  end.

(** [s.strip()] *)
Definition strip (s : string) : string := lstrip (rstrip s).

Definition lower_char (c : ascii) : ascii :=
  let n := nat_of_ascii c in
  if (65 <=? n)%nat && (n <=? 90)%nat then ascii_of_nat (n + 32) else c.

(** [s.lower()] *)
Fixpoint lower (s : string) : string :=
  match s with
  | EmptyString => EmptyString
  | String c r => String (lower_char c) (lower r)
  end.

(** The scanning loop of [str.splitlines]: [cur] is the line read so far.
    A line ends at LF, at CR, or at CR LF taken as one break; the break is
    kept in the line when [keepends] holds.  Text after the last break is a
    final line when it is not empty. *)
Fixpoint splitlines_from (keepends : bool) (cur s : string) : list string :=
  match s with
  | EmptyString => if is_empty cur then [] else [cur]
  | String c r =>
      if Ascii.eqb c LF then
        (cur +:+ (if keepends then str1 LF else "")) ::
        splitlines_from keepends "" r
      else if Ascii.eqb c CR then
        match r with
        | String c' r' =>
            if Ascii.eqb c' LF then
              (cur +:+ (if keepends then String CR (str1 LF) else "")) ::
              splitlines_from keepends "" r'
            else
              (cur +:+ (if keepends then str1 CR else "")) ::
              splitlines_from keepends "" r
        | EmptyString =>
            (cur +:+ (if keepends then str1 CR else "")) ::
            splitlines_from keepends "" r
        end
      else splitlines_from keepends (cur +:+ str1 c) r
  end.

(** [s.splitlines(keepends)] *)
Definition splitlines (keepends : bool) (s : string) : list string :=
  splitlines_from keepends "" s.

(** [s.split("=", 1)]: [None] when the result has one element only,
    otherwise the two elements. *)
Fixpoint split_eq1 (s : string) : option (string * string) :=
  match s with
  | EmptyString => None
  | String c r =>
      if Ascii.eqb c "="%char then Some ("", r)
      else match split_eq1 r with
           | Some (a, v) => Some (String c a, v)
           | None => None
           end
  end.

(** [s[2:]] *)
Definition drop2 (s : string) : string :=
  match s with
  | String _ (String _ r) => r
  | _ => ""
  end.

(** [s.replace(old, new)] for a one-character [old] *)
Fixpoint replace1 (old : ascii) (new s : string) : string :=
  match s with
  | EmptyString => EmptyString
  | String c r =>
      (if Ascii.eqb c old then new else str1 c) +:+ replace1 old new r
  end.

(** [os.path.basename(p)]: what follows the last slash *)
Fixpoint basename_from (cur p : string) : string :=
  match p with
  | EmptyString => cur
  | String c r =>
      if Ascii.eqb c "/"%char then basename_from "" r
      else basename_from (cur +:+ str1 c) r
  end.

Definition basename (p : string) : string := basename_from "" p.

End PyStr.
Import PyStr.

(** ** Python values and observable events *)

(** The values the option dictionaries hold.  A [type='float'] option
    whose value is a whole number of seconds is carried as [VInt]. *)
Inductive pyval :=
| VNone
| VBool (b : bool)
| VInt (z : Z)
| VStr (s : string).

(** [bool(v)] *)
Definition truthy (v : pyval) : bool :=
  match v with
  | VNone => false
  | VBool b => b
  | VInt z => negb (z =? 0)
  | VStr s => negb (is_empty s)
  end.

(** [v == s] for a string literal [s] *)
Definition eq_str (v : pyval) (s : string) : bool :=
  match v with
  | VStr t => String.eqb t s
  | _ => false
  end.

(** [str(v)] *)
Definition py_str (v : pyval) : string :=
  match v with
  | VNone => "None"
  | VBool true => "True"
  | VBool false => "False"
  | VInt z => pretty z
  | VStr s => s
  end.

(** Keyword arguments of one [device.connect] call; [allow_agent] and
    [look_for_keys] are [True] when the call does not pass them. *)
Record connect_args := ConnectArgs {
  ca_address : pyval;
  ca_username : pyval;
  ca_password : pyval;
  ca_port : pyval;
  ca_timeout : pyval;
  ca_allow_agent : bool;
  ca_look_for_keys : bool
}.

Inductive event :=
| EvWrite (s : string)                       (* sys.stdout.write(s) *)
| EvPrint (s : string)                       (* print s *)
| EvConnect (args : connect_args) (ok : bool)
                                             (* device.connect(...), and
                                                whether it returned *)
| EvExec (command : pyval) (timeout : Z)     (* device.exec_command(...) *)
| EvSftpOpen                                 (* device.open_sftp() *)
| EvSftpPut (localpath remotepath : string)  (* sftp.put(...) *)
| EvSftpClose                                (* sftp.close() *)
| EvClose.                                   (* device.close() *)

(** The argument of [sys.exit]. *)
Inductive exit_arg :=
| ExitCode (n : Z)
| ExitMessage (s : string).


(** How an invocation ends: [module.exit_json] with its [stdout],
    [stdout_lines] and [changed]; [module.fail_json] with its keyword
    arguments; [sys.exit(arg)]; or an exception that nothing catches. *)
Inductive stop :=
| ExitJson (stdout : string) (stdout_lines : list string) (changed : bool)
| FailJson (kwargs : list (string * string))
| SysExit (arg : exit_arg)
| Uncaught (exn : string).

(** A call that may raise an [Exception] whose [str] is [e]. *)
Inductive raised (A : Type) :=
| Raises (e : string)
| Returns (a : A).
Arguments Raises {A} e.
Arguments Returns {A} a.

(** The world outside the script.  The oracles of the SSH client see the
    events that happened before the call. *)
Record World := {
  paramiko_import : raised unit;
  ansible_import_ok : bool;
  stdin_isatty : bool;
  gethostbyname : string -> raised string;
  ssh_connect : list event -> connect_args -> raised unit;
  ssh_exec : list event -> pyval -> raised string;
  sftp_put : list event -> string -> string -> raised unit;
  isfile : string -> bool;
  readlines : string -> raised (list string)
}.

(** ** The state-and-exit monad *)

Inductive res (A : Type) :=
| Val (a : A)
| Stop (s : stop).
Arguments Val {A} a.
Arguments Stop {A} s.

Definition M (A : Type) : Type := list event -> res A * list event.

Definition ret {A} (a : A) : M A := fun tr => (Val a, tr).

Definition bind {A B} (m : M A) (k : A -> M B) : M B :=
  fun tr =>
    match m tr with
    | (Val a, tr') => k a tr'
    | (Stop s, tr') => (Stop s, tr')
    end.

Definition halt {A} (s : stop) : M A := fun tr => (Stop s, tr).

Definition emit (e : event) : M unit := fun tr => (Val tt, tr ++ [e]).

(** An effect on the world: its result is read from the oracle at the
    events so far, then the call is recorded. *)
Definition call {A} (e : event) (oracle : list event -> A) : M A :=
  fun tr => (Val (oracle tr), tr ++ [e]).

(** The same, when the record of the call shows its result. *)
Definition call_logged {A} (e : A -> event) (oracle : list event -> A) : M A :=
  fun tr => (Val (oracle tr), tr ++ [e (oracle tr)]).

Definition returned {A} (r : raised A) : bool :=
  match r with
  | Returns _ => true
  | Raises _ => false
  end.

Notation "'let*' x ':=' m 'in' k" := (bind m (fun x => k))
  (at level 10, x binder, m at level 100, k at level 200).
Notation "m ';;' k" := (bind m (fun _ => k))
  (at level 100, k at level 200, right associativity).

(** [sys.exit(arg)] *)
Definition sys_exit {A} (arg : exit_arg) : M A := halt (SysExit arg).

(** [d[k]] *)
Definition getitem (d : gmap string pyval) (k : string) : M pyval :=
  match d !! k with
  | Some v => ret v
  | None => halt (Uncaught "KeyError")
  end.

(** [k in d] *)
Definition dict_has (d : gmap string pyval) (k : string) : bool :=
  match d !! k with
  | Some _ => true
  | None => false
  end.

(** ** Module constants *)

Definition SHELLDEFS : gmap string pyval :=
  list_to_map
    [("username", VStr "admin");
     ("password", VStr "");
     ("key_filename", VNone);
     ("timeout", VInt 30);
     ("port", VInt 22);
     ("test_change", VBool true);
     ("command", VNone);
     ("upload_script", VNone);
     ("upload_file", VNone)].

Definition MIKROTIK_MODULE : string :=
  "[github.com/nekitamo/ansible-mikrotik] v17.07".

Definition SHELL_USAGE : string :=
  str1 LF +:+
  "mikrotik_command.py --hostname=<hostname> (--command=<command> | --upload_script=<file>)"
  +:+ str1 LF +:+
  "    [--upload_file=<file>] [--port=<port>] [--username=<username>] [--password=<password>] [--test_change]"
  +:+ str1 LF.

(** The defaults of the [argument_spec] handed to [AnsibleModule]
    (lines 207-218); [hostname] is [required] and has none.  [timeout]
    has [type='float']; its default of 30 seconds is carried as
    [VInt 30]. *)
Definition argument_spec : gmap string pyval :=
  list_to_map
    [("command", VNone);
     ("upload_script", VNone);
     ("test_change", VBool true);
     ("upload_file", VNone);
     ("key_filename", VNone);
     ("port", VInt 22);
     ("timeout", VInt 30);
     ("username", VStr "ansible");
     ("password", VNone)].

(** [AnsibleModule(argument_spec=...)] belongs to Ansible, not to this
    repository.  Of its behaviour the embedding keeps what the argument
    specification states: a missing required option fails the task, and
    an option that is not supplied takes its default.  [task] holds the
    supplied options, already of their declared types.  The result is
    [module.params]. *)
Definition AnsibleModule (task : gmap string pyval) : M (gmap string pyval) :=
  if dict_has task "hostname" then ret (task ∪ argument_spec)
  else halt (FailJson [("msg", "missing required arguments: hostname")]).

(** ** parse_opts (lines 129-153) *)

(** Lines 140-143: the coercion of the value of [--key=value]. *)
Definition coerce (val : string) : pyval :=
  let l := lower val in
  if String.eqb l "no" || String.eqb l "false" || String.eqb l "0"
  then VBool false
  else if String.eqb l "yes" || String.eqb l "true" || String.eqb l "1"
  then VBool true
  else VStr val.

(** Lines 133-149: the body of the loop, for one element of [cmdline]. *)
Definition parse_opt (options : gmap string pyval) (opt : string)
  : M (gmap string pyval) :=
  if startswith opt "--" then
    let '(arg, val) :=
      match split_eq1 opt with
      | None => (opt, VBool true)
      | Some (arg, val) => (arg, coerce val)
      end in
    let arg := drop2 arg in
    if dict_has options arg || String.eqb arg "hostname"
    then ret (<[arg := val]> options)
    else emit (EvPrint SHELL_USAGE) ;;
         sys_exit (ExitMessage ("Unknown option: --" +:+ arg))
  else ret options.

Fixpoint parse_loop (options : gmap string pyval) (cmdline : list string)
  : M (gmap string pyval) :=
  match cmdline with
  | [] => ret options
  | opt :: rest =>
      let* options := parse_opt options opt in
      parse_loop options rest
  end.

Definition parse_opts (cmdline : list string) : M (gmap string pyval) :=
  let* options := parse_loop SHELLDEFS cmdline in
  if negb (dict_has options "hostname") then
    emit (EvPrint SHELL_USAGE) ;;
    sys_exit
      (ExitMessage "Hostname is required, specify with --hostname=<hostname>")
  else ret options.

(** ** Exceptions *)

(** [raise]: an exception propagates as [Uncaught] until a handler takes
    it.  [e] is the text of an exception the world raised, or the class
    name of one the interpreter raised. *)
Definition raise {A} (e : string) : M A := halt (Uncaught e).

Definition lift_raised {A} (r : raised A) : M A :=
  match r with
  | Raises e => raise e
  | Returns a => ret a
  end.

(** [try: body / except Exception as e: handler e].  [SystemExit], which
    [sys.exit], [fail_json] and [exit_json] raise, is not an [Exception]
    and passes through. *)
Definition try_except {A} (body : M A) (handler : string -> M A) : M A :=
  fun tr =>
    match body tr with
    | (Stop (Uncaught e), tr') => handler e tr'
    | r => r
    end.

(** [os.path.isfile(v)] and [os.path.basename(v)]; both reject what is
    not a string. *)
Definition os_path_isfile (w : World) (v : pyval) : M bool :=
  match v with
  | VStr p => ret (isfile w p)
  | _ => raise "TypeError"
  end.

Definition os_path_basename (v : pyval) : M string :=
  match v with
  | VStr p => ret (basename p)
  | _ => raise "TypeError"
  end.

(** [prefix + v] for a string [prefix] *)
Definition str_add (prefix : string) (v : pyval) : M string :=
  match v with
  | VStr s => ret (prefix +:+ s)
  | _ => raise "TypeError"
  end.

(** The SSH client object [paramiko.SSHClient()]. *)
Inductive SSHClient := sshclient.

(** What both entry paths of [main] hand to the rest of it
    (lines 226-235 and 243-253). *)
Record request := Request {
  rq_module : option (gmap string pyval);
  rq_rosdev : gmap string pyval;
  rq_command : pyval;
  rq_upload_script : pyval;
  rq_test_change : pyval;
  rq_upload_file : pyval
}.

Definition cmd_timeout : Z := 30.

(** ** Change detection (lines 324-331) *)

(** The [for ... else] loop of lines 327-331: [true] when the loop ends
    without [break], which is when its [else] clause runs. *)
Fixpoint for_else (pairs : list (string * string)) : bool :=
  match pairs with
  | [] => true
  | (bef, aft) :: rest =>
      if negb (String.eqb aft bef) then false else for_else rest
  end.

(** Lines 324-331, from the value [changed] has before them to the value
    it has after them. *)
Definition diff (before after : string) (changed : bool) : bool :=
  let before := tail (splitlines true before) in
  let after := tail (splitlines true after) in
  if (length before =? length after)%nat then
    if for_else (zip before after) then false else changed
  else changed.

(** Lines 338-341. *)
Fixpoint stdout_lines_of (lines : list string) : list string :=
  match lines with
  | [] => []
  | line :: rest =>
      if negb (is_empty line) then strip line :: stdout_lines_of rest
      else stdout_lines_of rest
  end.

(** Lines 303-307: one line of the script, escaped and terminated. *)
Definition script_line (line : string) : string :=
  let line := rstrip line in
  let line := replace1 "\"%char "\\" line in
  let line := replace1 DQ ("\" +:+ str1 DQ) line in
  let line := replace1 "$"%char "\$" line in
  line +:+ "\r\n".

(** ** The script *)

Section Script.

Context (w : World).

Section Mode.

(** The global [SHELLMODE] as it stands when the functions run. *)
Context (SHELLMODE : bool).

(** Lines 117-121. *)
Definition safe_fail {A} (module : option (gmap string pyval))
    (device : option SSHClient) (kwargs : list (string * string)) : M A :=
  (if device is Some _ then emit EvClose else ret tt) ;;
  match module with
  | Some _ => halt (FailJson kwargs)
  | None => raise "AttributeError"
  end.

(** Lines 123-127. *)
Definition safe_exit {A} (module : option (gmap string pyval))
    (device : option SSHClient)
    (stdout : string) (stdout_lines : list string) (changed : bool) : M A :=
  (if device is Some _ then emit EvClose else ret tt) ;;
  match module with
  | Some _ => halt (ExitJson stdout stdout_lines changed)
  | None => raise "AttributeError"
  end.

(** One [device.connect(rosdev['ipaddress'], username=..., ...)]. *)
Definition device_connect_call (rosdev : gmap string pyval)
    (allow_agent look_for_keys : bool) : M unit :=
  let* ipaddress := getitem rosdev "ipaddress" in
  let* username := getitem rosdev "username" in
  let* password := getitem rosdev "password" in
  let* port := getitem rosdev "port" in
  let* timeout := getitem rosdev "timeout" in
  let args := ConnectArgs ipaddress username password port timeout
                allow_agent look_for_keys in
  let* r := call_logged (fun r => EvConnect args (returned r))
              (fun tr => ssh_connect w tr args) in
  lift_raised r.

(** ['%s(%s:%s)' % (rosdev['hostname'], rosdev['ipaddress'], rosdev['port'])] *)
Definition device_name (rosdev : gmap string pyval) : M string :=
  let* hostname := getitem rosdev "hostname" in
  let* ipaddress := getitem rosdev "ipaddress" in
  let* port := getitem rosdev "port" in
  ret (py_str hostname +:+ "(" +:+ py_str ipaddress +:+ ":" +:+ py_str port
       +:+ ")").

(** Lines 155-178. *)
Definition device_connect (module : option (gmap string pyval))
    (device : option SSHClient) (rosdev : gmap string pyval) : M unit :=
  (if SHELLMODE then
     let* name := device_name rosdev in
     emit (EvWrite ("Opening SSH connection to " +:+ name +:+ "... "))
   else ret tt) ;;
  try_except (device_connect_call rosdev true true)
    (fun _ =>
       try_except (device_connect_call rosdev false false)
         (fun ssh_error =>
            (if SHELLMODE then
               sys_exit (ExitMessage ("failed!" +:+ str1 LF +:+ "SSH error: "
                                      +:+ ssh_error))
             else ret tt) ;;
            let* name := device_name rosdev in
            safe_fail module device
              [("msg", ssh_error);
               ("description", "error opening ssh connection to " +:+ name)])) ;;
  (if SHELLMODE then emit (EvPrint "succes.") else ret tt).

(** Lines 180-198. *)
Definition sshcmd (module : option (gmap string pyval))
    (device : option SSHClient) (timeout : Z) (command : pyval) : M string :=
  let* response :=
    try_except
      (let* r := call (EvExec command timeout)
                   (fun tr => ssh_exec w tr command) in
       lift_raised r)
      (fun ssh_error =>
         (if SHELLMODE then
            sys_exit (ExitMessage ("SSH command error: " +:+ ssh_error))
          else ret tt) ;;
         safe_fail module device
           [("msg", ssh_error);
            ("description", "SSH error while executing command")]) in
  let rejected : M string :=
    (if SHELLMODE then
       emit (EvPrint ("Command: " +:+ py_str command)) ;;
       sys_exit (ExitMessage ("Error: " +:+ response))
     else ret tt) ;;
    safe_fail module device
      [("msg", "bad command name or syntax error");
       ("description", "bad command name or syntax error")] in
  if negb (str_in "bad command name " response) then
    if negb (str_in "syntax error " response) then
      if negb (str_in "failure: " response) then ret (rstrip response)
      else rejected
    else rejected
  else rejected.

(** Lines 206-235: the pipeline entry path. *)
Definition pipeline_request (task : gmap string pyval) : M request :=
  let* params := AnsibleModule task in
  let module := Some params in
  (if paramiko_import w is Raises import_error then
     safe_fail module None
       [("msg", "There was a problem loading module: ");
        ("error", import_error)]
   else ret tt) ;;
  let* command := getitem params "command" in
  let* upload_script := getitem params "upload_script" in
  (if negb (truthy command) && negb (truthy upload_script) then
     safe_fail module None
       [("msg", "command required");
        ("description", "command or upload_script is required")]
   else ret tt) ;;
  let* test_change := getitem params "test_change" in
  let* upload_file := getitem params "upload_file" in
  let rosdev : gmap string pyval := ∅ in
  let* key_filename := getitem params "key_filename" in
  let rosdev := <["key_filename" := key_filename]> rosdev in
  let* hostname := getitem params "hostname" in
  let rosdev := <["hostname" := hostname]> rosdev in
  let* username := getitem params "username" in
  let rosdev := <["username" := username]> rosdev in
  let* password := getitem params "password" in
  let rosdev := <["password" := password]> rosdev in
  let* port := getitem params "port" in
  let rosdev := <["port" := port]> rosdev in
  let* timeout := getitem params "timeout" in
  let rosdev := <["timeout" := timeout]> rosdev in
  ret (Request module rosdev command upload_script test_change upload_file).

(** Lines 238-253: the standalone entry path.  [SHELLOPTS] is the global
    that [parse_opts] filled, unbound when it did not run. *)
Definition shell_request (SHELLOPTS : option (gmap string pyval)) : M request :=
  (if paramiko_import w is Raises import_error then
     sys_exit (ExitMessage ("SSH client error: " +:+ import_error))
   else ret tt) ;;
  let* SHELLOPTS :=
    (if SHELLOPTS is Some o then ret o else raise "NameError") in
  let* command := getitem SHELLOPTS "command" in
  let* upload_script := getitem SHELLOPTS "upload_script" in
  (if negb (truthy command) && negb (truthy upload_script) then
     emit (EvPrint SHELL_USAGE) ;;
     sys_exit
       (ExitMessage
          "command required, specify with --command=<cmd> or --upload_script=<file>")
   else ret tt) ;;
  let rosdev : gmap string pyval := ∅ in
  let* hostname := getitem SHELLOPTS "hostname" in
  let rosdev := <["hostname" := hostname]> rosdev in
  let* username := getitem SHELLOPTS "username" in
  let rosdev := <["username" := username]> rosdev in
  let* password := getitem SHELLOPTS "password" in
  let rosdev := <["password" := password]> rosdev in
  let* port := getitem SHELLOPTS "port" in
  let rosdev := <["port" := port]> rosdev in
  let* timeout := getitem SHELLOPTS "timeout" in
  let rosdev := <["timeout" := timeout]> rosdev in
  let* key_filename := getitem SHELLOPTS "key_filename" in
  let rosdev := <["key_filename" := key_filename]> rosdev in
  let* command := getitem SHELLOPTS "command" in
  let* upload_script := getitem SHELLOPTS "upload_script" in
  let* test_change := getitem SHELLOPTS "test_change" in
  let* upload_file := getitem SHELLOPTS "upload_file" in
  ret (Request None rosdev command upload_script test_change upload_file).

(** Lines 255-261: [rosdev] with its [ipaddress]. *)
Definition resolve (module : option (gmap string pyval))
    (rosdev : gmap string pyval) : M (gmap string pyval) :=
  let* hostname := getitem rosdev "hostname" in
  match hostname with
  | VStr h =>
      match gethostbyname w h with
      | Returns address => ret (<["ipaddress" := VStr address]> rosdev)
      | Raises dns_error =>
          (if SHELLMODE then
             sys_exit (ExitMessage ("Hostname error: " +:+ dns_error))
           else ret tt) ;;
          safe_fail module None
            [("msg", dns_error);
             ("description", "error getting device address from hostname")]
      end
  | _ => raise "TypeError"
  end.

(** Lines 270-283: the value of [uploaded] afterwards, [None] when the
    name is still unbound. *)
Definition upload (module : option (gmap string pyval))
    (device : option SSHClient) (upload_file : pyval) : M (option string) :=
  let* present :=
    (if truthy upload_file then os_path_isfile w upload_file else ret false) in
  if present then
    let* uploaded := os_path_basename upload_file in
    emit EvSftpOpen ;;
    (let* r := call (EvSftpPut (py_str upload_file) uploaded)
                 (fun tr => sftp_put w tr (py_str upload_file) uploaded) in
     lift_raised r) ;;
    emit EvSftpClose ;;
    let* response :=
      sshcmd module device cmd_timeout
        (VStr ("file print terse without-paging where name=" +:+ str1 DQ
               +:+ uploaded +:+ str1 DQ)) in
    if negb (str_in uploaded response) then
      (if SHELLMODE then
         emit EvClose ;;
         sys_exit (ExitMessage ("Error uploading file: " +:+ uploaded))
       else ret tt) ;;
      safe_fail module device
        [("msg", "upload failed!");
         ("description", "error uploading file: " +:+ uploaded)]
    else ret (Some uploaded)
  else ret None.

(** Lines 286-311: the script branch. *)
Definition run_script (module : option (gmap string pyval))
    (device : option SSHClient) (upload_script : pyval) : M string :=
  let response := "" in
  let* script :=
    try_except (lift_raised (readlines w (py_str upload_script)))
      (fun cmd_error =>
         (if SHELLMODE then
            emit EvClose ;;
            sys_exit (ExitMessage ("Script file error: " +:+ cmd_error))
          else ret tt) ;;
         safe_fail module device
           [("msg", cmd_error); ("description", "error opening script file")]) in
  let* scriptname := os_path_basename upload_script in
  let* r := sshcmd module device cmd_timeout
              (VStr ("/system script remove [ find name=" +:+ str1 DQ
                     +:+ scriptname +:+ str1 DQ +:+ " ]")) in
  let response := response +:+ r in
  let cmd := "/system script add name=" +:+ str1 DQ +:+ scriptname
             +:+ str1 DQ +:+ " source=" +:+ str1 DQ in
  let cmd := fold_left (fun cmd line => cmd +:+ script_line line) script cmd in
  let* r := sshcmd module device cmd_timeout (VStr (cmd +:+ str1 DQ)) in
  let response := response +:+ r in
  let* r := sshcmd module device cmd_timeout
              (VStr ("/system script run [ find name=" +:+ str1 DQ
                     +:+ scriptname +:+ str1 DQ +:+ " ]")) in
  let response := response +:+ r in
  ret response.

(** Lines 313-318: the command branch. *)
Definition run_command (module : option (gmap string pyval))
    (device : option SSHClient) (rosdev : gmap string pyval)
    (upload_file command : pyval) (uploaded : option string) : M string :=
  if truthy upload_file && eq_str command "user ssh-keys import" then
    let* uploaded :=
      (if uploaded is Some u then ret u else raise "UnboundLocalError") in
    let* username := getitem rosdev "username" in
    let* cmd := str_add ("/user ssh-keys import public-key-file=" +:+ str1 DQ
                         +:+ uploaded +:+ str1 DQ +:+ " user=") username in
    sshcmd module device cmd_timeout (VStr cmd)
  else sshcmd module device cmd_timeout command.

(** Lines 285-320: [response] after the script or the command ran. *)
Definition execute (module : option (gmap string pyval))
    (device : option SSHClient) (rosdev : gmap string pyval)
    (upload_script upload_file command : pyval) (uploaded : option string)
  : M string :=
  let* scripted :=
    (if truthy upload_script then os_path_isfile w upload_script
     else ret false) in
  let* response :=
    (if scripted then run_script module device upload_script
     else run_command module device rosdev upload_file command uploaded) in
  ret (if negb (is_empty response) then response +:+ String CR (str1 LF)
       else response).

(** Lines 322-331: the value of [changed] afterwards. *)
Definition detect_change (module : option (gmap string pyval))
    (device : option SSHClient) (test_change : pyval) (before : option string)
    (changed : bool) : M bool :=
  if truthy test_change then
    let* after := sshcmd module device cmd_timeout (VStr "/export") in
    let* before :=
      (if before is Some b then ret b else raise "UnboundLocalError") in
    ret (diff before after changed)
  else ret changed.

(** Lines 333-344. *)
Definition report (module : option (gmap string pyval))
    (device : option SSHClient) (response : string) (changed : bool) : M unit :=
  (if SHELLMODE then
     emit EvClose ;;
     emit (EvPrint response) ;;
     sys_exit (ExitCode 0)
   else ret tt) ;;
  let stdout_lines := stdout_lines_of (splitlines false response) in
  safe_exit module device response stdout_lines changed.

(** Lines 263-344: the session, from the creation of the device handle
    to the report. *)
Definition session (rq : request) (rosdev : gmap string pyval)
    (changed : bool) : M unit :=
  let module := rq_module rq in
  let device := Some sshclient in
  device_connect module device rosdev ;;
  let* before :=
    (if truthy (rq_test_change rq) then
       let* b := sshcmd module device cmd_timeout (VStr "export") in
       ret (Some b)
     else ret None) in
  let* uploaded := upload module device (rq_upload_file rq) in
  let* response :=
    execute module device rosdev (rq_upload_script rq) (rq_upload_file rq)
      (rq_command rq) uploaded in
  let* changed :=
    detect_change module device (rq_test_change rq) before changed in
  report module device response changed.

(** Lines 255-344: [main] once [rosdev], [command], [upload_script],
    [test_change], [upload_file] and [module] are set; [changed] is the
    value line 204 gave. *)
Definition main_body (rq : request) (changed : bool) : M unit :=
  let* rosdev := resolve (rq_module rq) (rq_rosdev rq) in
  session rq rosdev changed.

(** Lines 200-344. *)
Definition main (SHELLOPTS : option (gmap string pyval))
    (task : gmap string pyval) : M unit :=
  let changed := true in
  let* rq :=
    (if negb SHELLMODE then pipeline_request task
     else shell_request SHELLOPTS) in
  main_body rq changed.

End Mode.

(** Lines 14-21: [SHELLMODE] after the imports. *)
Definition SHELLMODE_at_import : bool :=
  if ansible_import_ok w then stdin_isatty w else true.

(** Lines 346-351: the script run with [sys.argv = argv]; [task] is what
    the pipeline supplies to [AnsibleModule]. *)
Definition dunder_main (argv : list string) (task : gmap string pyval)
  : M unit :=
  if (1 <? length argv)%nat || SHELLMODE_at_import then
    emit (EvPrint ("Ansible MikroTik Library " +:+ MIKROTIK_MODULE)) ;;
    let* SHELLOPTS := parse_opts argv in
    main true (Some SHELLOPTS) task
  else main false None task.

End Script.

(** The outcome and the events of a whole run. *)
Definition run {A} (m : M A) : res A * list event := m [].

(** ** Vocabulary of the statements *)

(** [sub] occurs in [s]. *)
Definition contains (sub s : string) : Prop :=
  exists pre post, s = pre +:+ sub +:+ post.

(** The response carries one of the three marks of a rejected command. *)
Definition has_error_mark (response : string) : bool :=
  str_in "bad command name " response
  || str_in "syntax error " response
  || str_in "failure: " response.

Definition is_close (e : event) : bool :=
  match e with EvClose => true | _ => false end.

Definition is_connect (e : event) : bool :=
  match e with EvConnect _ _ => true | _ => false end.

(** How many events of [tr] satisfy [p]. *)
Fixpoint count (p : event -> bool) (tr : list event) : nat :=
  match tr with
  | [] => 0
  | e :: r => ((if p e then 1 else 0) + count p r)%nat
  end.

(** The [device.connect] calls of [tr], in order: the arguments of each
    and whether it returned. *)
Fixpoint connect_attempts (tr : list event) : list (connect_args * bool) :=
  match tr with
  | [] => []
  | EvConnect a ok :: r => (a, ok) :: connect_attempts r
  | _ :: r => connect_attempts r
  end.

(** [a] with the SSH agent and the search for key files turned off. *)
Definition without_agent_and_keys (a : connect_args) : connect_args :=
  ConnectArgs (ca_address a) (ca_username a) (ca_password a) (ca_port a)
    (ca_timeout a) false false.

(** [a] leaves [allow_agent] and [look_for_keys] at their defaults. *)
Definition default_auth (a : connect_args) : Prop :=
  ca_allow_agent a = true /\ ca_look_for_keys a = true.

(** [s] is how a failed connection ends the task: [sys.exit] with the
    SSH error in standalone mode, [fail_json] with it in pipeline mode. *)
Definition connection_error (SHELLMODE : bool)
    (module : option (gmap string pyval)) (s : stop) : Prop :=
  (SHELLMODE = true ->
   exists e, s = SysExit (ExitMessage ("failed!" +:+ str1 LF +:+ "SSH error: "
                                      +:+ e)))
  /\ (SHELLMODE = false -> is_Some module ->
      exists e name,
        s = FailJson [("msg", e);
                      ("description",
                       "error opening ssh connection to " +:+ name)]).

(** [a] holds what [device.connect] is given out of [rosdev]. *)
Definition login_for (rosdev : gmap string pyval) (a : connect_args) : Prop :=
  rosdev !! "ipaddress" = Some (ca_address a)
  /\ rosdev !! "username" = Some (ca_username a)
  /\ rosdev !! "password" = Some (ca_password a)
  /\ rosdev !! "port" = Some (ca_port a)
  /\ rosdev !! "timeout" = Some (ca_timeout a).

(** What standalone mode writes before the first login, and pipeline
    mode does not. *)
Definition opening (SHELLMODE : bool) (hostname : pyval) (a : connect_args)
  : list event :=
  if SHELLMODE
  then [EvWrite ("Opening SSH connection to "
                 +:+ (py_str hostname +:+ "(" +:+ py_str (ca_address a) +:+ ":"
                      +:+ py_str (ca_port a) +:+ ")")
                 +:+ "... ")]
  else [].

(** The command that stands in for ['user ssh-keys import']. *)
Definition ssh_keys_import (uploaded username : string) : string :=
  "/user ssh-keys import public-key-file=" +:+ str1 DQ +:+ uploaded
  +:+ str1 DQ +:+ " user=" +:+ username.

(** The query for an uploaded file. *)
Definition file_query (uploaded : string) : string :=
  "file print terse without-paging where name=" +:+ str1 DQ +:+ uploaded
  +:+ str1 DQ.

(** Line 285 does not take the script branch. *)
Definition script_skipped (w : World) (upload_script : pyval) : Prop :=
  truthy upload_script = false
  \/ exists p, upload_script = VStr p /\ isfile w p = false.

(** Lines 319-320. *)
Definition with_crlf (response : string) : string :=
  if negb (is_empty response) then response +:+ String CR (str1 LF)
  else response.

(** The option name [parse_opts] reads off an element of [cmdline]. *)
Definition opt_name (opt : string) : string :=
  drop2 (match split_eq1 opt with
         | Some (arg, _) => arg
         | None => opt
         end).

(** The value [parse_opts] reads off an element of [cmdline]. *)
Definition opt_value (opt : string) : pyval :=
  match split_eq1 opt with
  | Some (_, val) => coerce val
  | None => VBool true
  end.

(** The first line the script prints when it runs standalone. *)
Definition banner : string := "Ansible MikroTik Library " +:+ MIKROTIK_MODULE.

(** The option names [parse_opts] accepts. *)
Definition known_option (arg : string) : bool :=
  dict_has SHELLDEFS arg || String.eqb arg "hostname".

(** The dictionary accepts the option names that [SHELLDEFS] has, and
    [hostname]. *)
Definition keys_ok (options : gmap string pyval) : Prop :=
  forall k, dict_has options k || String.eqb k "hostname" = known_option k.

(** The script runs standalone: [parse_opts] reads [argv]. *)
Definition standalone (w : World) (argv : list string) : bool :=
  (1 <? length argv)%nat || SHELLMODE_at_import w.

(** ** Specifications of computations *)

(** [m] only appends events, and [Q] holds of what it appends and of how
    it ends. *)
Definition spec {A} (m : M A) (Q : list event -> res A -> Prop) : Prop :=
  forall tr, exists suf, snd (m tr) = tr ++ suf /\ Q suf (fst (m tr)).

(** What a step of the session between connecting and reporting may do,
    with the device handle [device] at hand: it never logs in, it leaves
    the handle open when it returns, it never ends the task with
    [exit_json], [fail_json] is pipeline mode's and comes after exactly
    one [close] when there is a handle, [sys.exit] is standalone mode's. *)
Definition tame (SHELLMODE : bool) (device : option SSHClient)
    {A} (suf : list event) (r : res A) : Prop :=
  connect_attempts suf = [] /\
  match r with
  | Val _ => count is_close suf = 0%nat
  | Stop (ExitJson _ _ _) => False
  | Stop (FailJson _) =>
      SHELLMODE = false /\
      if device is Some _
      then count is_close suf = 1%nat /\ last suf = Some EvClose
      else count is_close suf = 0%nat
  | Stop (SysExit _) => SHELLMODE = true /\ (count is_close suf <= 1)%nat
  | Stop (Uncaught _) => (count is_close suf <= 1)%nat
  end.

(** What the body of a [try] may do: no login, no [close], and no end of
    the task other than an exception. *)
Definition calm {A} (suf : list event) (r : res A) : Prop :=
  connect_attempts suf = [] /\ count is_close suf = 0%nat /\
  match r with
  | Val _ | Stop (Uncaught _) => True
  | _ => False
  end.

(** What one [device.connect] may do: one login at most, no [close], and
    no end of the task other than an exception. *)
Definition attempting {A} (suf : list event) (r : res A) : Prop :=
  (length (connect_attempts suf) <= 1)%nat /\ count is_close suf = 0%nat /\
  match r with
  | Val _ | Stop (Uncaught _) => True
  | _ => False
  end.

(** How a stretch of the session may end: with [n] logins at most; with
    the handle still open when it returns; through [exit_json] in
    pipeline mode only, after exactly one [close], which is the last
    event, and with a [changed] that satisfies [P]; through [fail_json]
    in pipeline mode only, after exactly one [close] when there is a
    handle; through [sys.exit] in standalone mode only. *)
Definition ends (n : nat) (SHELLMODE : bool) (device : option SSHClient)
    (P : bool -> Prop) {A} (suf : list event) (r : res A) : Prop :=
  (length (connect_attempts suf) <= n)%nat /\
  match r with
  | Val _ => count is_close suf = 0%nat
  | Stop (ExitJson _ _ changed) =>
      SHELLMODE = false /\ count is_close suf = 1%nat /\
      last suf = Some EvClose /\ P changed
  | Stop (FailJson _) =>
      SHELLMODE = false /\
      if device is Some _
      then count is_close suf = 1%nat /\ last suf = Some EvClose
      else (count is_close suf <= 1)%nat
  | Stop (SysExit _) => SHELLMODE = true /\ (count is_close suf <= 1)%nat
  | Stop (Uncaught _) => (count is_close suf <= 1)%nat
  end.



(** ** Scenarios *)

(** A reachable device that accepts the first login, answers every
    command with nothing, and a file system without files. *)
Definition lab : World := {|
  paramiko_import := Returns tt;
  ansible_import_ok := true;
  stdin_isatty := false;
  gethostbyname := fun _ => Returns "192.0.2.1";
  ssh_connect := fun _ _ => Returns tt;
  ssh_exec := fun _ _ => Returns "";
  sftp_put := fun _ _ _ => Returns tt;
  isfile := fun _ => false;
  readlines := fun _ => Raises "IOError"
|}.

Definition with_exec (w : World)
    (f : list event -> pyval -> raised string) : World := {|
  paramiko_import := paramiko_import w;
  ansible_import_ok := ansible_import_ok w;
  stdin_isatty := stdin_isatty w;
  gethostbyname := gethostbyname w;
  ssh_connect := ssh_connect w;
  ssh_exec := f;
  sftp_put := sftp_put w;
  isfile := isfile w;
  readlines := readlines w
|}.

Definition with_files (w : World) (present : string -> bool)
    (content : string -> raised (list string)) : World := {|
  paramiko_import := paramiko_import w;
  ansible_import_ok := ansible_import_ok w;
  stdin_isatty := stdin_isatty w;
  gethostbyname := gethostbyname w;
  ssh_connect := ssh_connect w;
  ssh_exec := ssh_exec w;
  sftp_put := sftp_put w;
  isfile := present;
  readlines := content
|}.

Definition with_connect (w : World)
    (f : list event -> connect_args -> raised unit) : World := {|
  paramiko_import := paramiko_import w;
  ansible_import_ok := ansible_import_ok w;
  stdin_isatty := stdin_isatty w;
  gethostbyname := gethostbyname w;
  ssh_connect := f;
  ssh_exec := ssh_exec w;
  sftp_put := sftp_put w;
  isfile := isfile w;
  readlines := readlines w
|}.

(** The device rejects a misspelt command. *)
Definition typo_world : World :=
  with_exec lab (fun _ command =>
    if eq_str command "/ip addres print"
    then Returns "syntax error (line 1 column 5)"
    else Returns "").

Definition typo_argv : list string :=
  ["mikrotik_command.py"; "--hostname=router";
   "--command=/ip addres print"; "--test_change=no"].

Definition typo_task : gmap string pyval :=
  list_to_map [("hostname", VStr "router");
               ("command", VStr "/ip addres print");
               ("test_change", VBool false)].

(** The device's configuration stays as it is: the two dumps differ in
    their first line only. *)
Definition stable_world : World :=
  with_exec lab (fun _ command =>
    if eq_str command "export"
    then Returns ("# jan/02/1970 00:00:01" +:+ str1 LF +:+ "/ip service"
                  +:+ str1 LF +:+ "set telnet disabled=yes" +:+ str1 LF)
    else if eq_str command "/export"
    then Returns ("# jan/02/1970 00:00:03" +:+ str1 LF +:+ "/ip service"
                  +:+ str1 LF +:+ "set telnet disabled=yes" +:+ str1 LF)
    else Returns "").

(** A pipeline request for one command, with change testing on or off. *)
Definition print_request (test_change : bool) : request := {|
  rq_module := Some ∅;
  rq_rosdev :=
    list_to_map [("key_filename", VNone); ("hostname", VStr "router");
                 ("username", VStr "ansible"); ("password", VNone);
                 ("port", VInt 22); ("timeout", VInt 30)];
  rq_command := VStr "/ip service print";
  rq_upload_script := VNone;
  rq_test_change := VBool test_change;
  rq_upload_file := VNone
|}.

(** The device takes the password, and no key nor agent. *)
Definition password_world : World :=
  with_connect lab (fun _ a =>
    if ca_allow_agent a || ca_look_for_keys a
    then Raises "Authentication failed."
    else Returns tt).

(** The device takes no login. *)
Definition locked_world : World :=
  with_connect lab (fun _ _ => Raises "Authentication failed.").

(** [rosdev] as [device_connect] receives it. *)
Definition login_rosdev : gmap string pyval :=
  list_to_map [("key_filename", VNone); ("hostname", VStr "router");
               ("username", VStr "ansible"); ("password", VStr "secret");
               ("port", VInt 22); ("timeout", VInt 30);
               ("ipaddress", VStr "192.0.2.1")].

Definition login_args (allow_agent look_for_keys : bool) : connect_args :=
  ConnectArgs (VStr "192.0.2.1") (VStr "ansible") (VStr "secret") (VInt 22)
    (VInt 30) allow_agent look_for_keys.

(** The public key is on the local disk; the device lists no file. *)
Definition lost_upload_world : World :=
  with_files lab (fun p => String.eqb p "/home/me/.ssh/id_rsa.pub")
    (fun _ => Raises "IOError").


(** The task imports a public key whose file is not on the local disk. *)
Definition missing_key_task : gmap string pyval :=
  list_to_map [("hostname", VStr "router");
               ("command", VStr "user ssh-keys import");
               ("upload_file", VStr "/home/me/.ssh/missing.pub");
               ("test_change", VBool false)].

(** The device lists an uploaded file by its name; the public key and a
    script are on the local disk. *)
Definition import_world : World :=
  with_files
    (with_exec lab (fun _ command =>
       if eq_str command
            ("file print terse without-paging where name=" +:+ str1 DQ
             +:+ "id_rsa.pub" +:+ str1 DQ)
       then Returns " 0 name=id_rsa.pub type=ssh key size=391"
       else Returns ""))
    (fun p => String.eqb p "/home/me/.ssh/id_rsa.pub"
              || String.eqb p "/home/me/setup.rsc")
    (fun p => if String.eqb p "/home/me/setup.rsc"
              then Returns ["/ip service set telnet disabled=yes" +:+ str1 LF]
              else Raises "IOError").

(** The task names a key to upload, the import command, and a script. *)
Definition import_with_script_task : gmap string pyval :=
  list_to_map [("hostname", VStr "router");
               ("command", VStr "user ssh-keys import");
               ("upload_file", VStr "/home/me/.ssh/id_rsa.pub");
               ("upload_script", VStr "/home/me/setup.rsc");
               ("test_change", VBool false)].

Definition import_task : gmap string pyval :=
  list_to_map [("hostname", VStr "router");
               ("command", VStr "user ssh-keys import");
               ("upload_file", VStr "/home/me/.ssh/id_rsa.pub");
               ("test_change", VBool false)].

(** The events of a key upload that the device lists. *)
Definition import_upload_trace : list event :=
  [EvSftpOpen; EvSftpPut "/home/me/.ssh/id_rsa.pub" "id_rsa.pub"; EvSftpClose;
   EvExec (VStr (file_query "id_rsa.pub")) 30].

(** The same logical input on both surfaces: a host and a command. *)
Definition reboot_task : gmap string pyval :=
  list_to_map [("hostname", VStr "router");
               ("command", VStr "/system reboot")].

Definition reboot_argv : list string :=
  ["mikrotik_command.py"; "--hostname=router"; "--command=/system reboot"].

(** ** Further vocabulary *)

(** No character of [s] ends a line. *)
Fixpoint no_linebreak (s : string) : bool :=
  match s with
  | EmptyString => true
  | String c r => negb (Ascii.eqb c LF) && negb (Ascii.eqb c CR) && no_linebreak r
  end.


(** [''.join(lines)] *)
Fixpoint join (lines : list string) : string :=
  match lines with
  | [] => ""
  | l :: r => l +:+ join r
  end.

(** A value read off the command line: a boolean or a string. *)
Definition bool_or_str (v : pyval) : Prop :=
  (exists b, v = VBool b) \/ (exists s, v = VStr s).

(** Every value of the dictionary is the default of [SHELLDEFS] or was
    read off the command line. *)
Definition values_ok (options : gmap string pyval) : Prop :=
  forall k v, options !! k = Some v -> SHELLDEFS !! k = Some v \/ bool_or_str v.

(** [opt.startswith('--')] *)
Definition dashed (opt : string) : bool := startswith opt "--".

Definition BSL : ascii := "\"%char.

(** What lines 304-306 make of one character. *)
Definition escape_char (c : ascii) : string :=
  if Ascii.eqb c BSL then String BSL (str1 BSL)
  else if Ascii.eqb c DQ then String BSL (str1 DQ)
  else if Ascii.eqb c "$"%char then String BSL (str1 "$"%char)
  else str1 c.

Fixpoint escape (s : string) : string :=
  match s with
  | EmptyString => EmptyString
  | String c r => escape_char c +:+ escape r
  end.

(** [s] is made of characters other than the double quote and the
    dollar, and of a backslash followed by a backslash, a double quote or
    a dollar. *)
Fixpoint escaped (s : string) : bool :=
  match s with
  | EmptyString => true
  | String c r =>
      if Ascii.eqb c BSL then
        match r with
        | String d r' =>
            (Ascii.eqb d BSL || Ascii.eqb d DQ || Ascii.eqb d "$"%char)
            && escaped r'
        | EmptyString => false
        end
      else negb (Ascii.eqb c DQ) && negb (Ascii.eqb c "$"%char) && escaped r
  end.

(** Reading an escaped text back: a backslash stands for the character
    after it. *)
Fixpoint unescape (s : string) : string :=
  match s with
  | EmptyString => EmptyString
  | String c r =>
      if Ascii.eqb c BSL then
        match r with
        | String d r' => String d (unescape r')
        | EmptyString => EmptyString
        end
      else String c (unescape r)
  end.

(** The three commands of the script branch (lines 298-311), for a script
    of the given name and lines. *)
Definition script_remove (scriptname : string) : string :=
  "/system script remove [ find name=" +:+ str1 DQ +:+ scriptname
  +:+ str1 DQ +:+ " ]".

Definition script_add (scriptname : string) (script : list string) : string :=
  "/system script add name=" +:+ str1 DQ +:+ scriptname +:+ str1 DQ
  +:+ " source=" +:+ str1 DQ +:+ join (map script_line script) +:+ str1 DQ.

Definition script_run (scriptname : string) : string :=
  "/system script run [ find name=" +:+ str1 DQ +:+ scriptname
  +:+ str1 DQ +:+ " ]".

(** Every event appended satisfies [P], and the task ends, if it does,
    in a way that satisfies [R]. *)
Definition only (P : event -> bool) (R : stop -> bool) {A}
    (suf : list event) (r : res A) : Prop :=
  forallb P suf = true /\
  match r with
  | Val _ => True
  | Stop s => R s = true
  end.

Definition any_event (e : event) : bool := true.

Definition any_stop (s : stop) : bool := true.

(** [e] writes to the standard output. *)
Definition is_output (e : event) : bool :=
  match e with EvWrite _ | EvPrint _ => true | _ => false end.

Definition not_output (e : event) : bool := negb (is_output e).

(** [e] sends a command or a file to the device. *)
Definition is_traffic (e : event) : bool :=
  match e with
  | EvExec _ _ | EvSftpOpen | EvSftpPut _ _ | EvSftpClose => true
  | _ => false
  end.

Definition not_traffic (e : event) : bool := negb (is_traffic e).

(** [e] is a login that succeeded. *)
Definition is_login (e : event) : bool :=
  match e with EvConnect _ true => true | _ => false end.

(** No command or file goes to the device before a login succeeded;
    [seen] tells whether one did before [tr]. *)
Fixpoint guarded (seen : bool) (tr : list event) : bool :=
  match tr with
  | [] => true
  | e :: r => (seen || negb (is_traffic e)) && guarded (seen || is_login e) r
  end.

(** The guard holds of what the computation appends. *)
Definition keeps_guard {A} (suf : list event) (r : res A) : Prop :=
  guarded false suf = true.

(** The computation ends the task whenever it is run. *)
Definition halts {A} (m : M A) : Prop :=
  forall tr, exists s, fst (m tr) = Stop s.

(** [s] is neither [exit_json] nor [sys.exit] with a status code. *)
Definition is_failure (s : stop) : bool :=
  match s with
  | ExitJson _ _ _ | SysExit (ExitCode _) => false
  | _ => true
  end.

(** A success is reported last: [exit_json] right after the [close] of
    the device handle; [sys.exit(0)] right after the [close] and the
    print of the response. *)
Definition success_last {A} (suf : list event) (r : res A) : Prop :=
  match r with
  | Val _ => True
  | Stop s =>
      is_failure s = false ->
      exists pre response,
        (s = SysExit (ExitCode 0)
         /\ suf = pre ++ [EvClose; EvPrint response])
        \/ (exists lines changed,
              s = ExitJson response lines changed /\ suf = pre ++ [EvClose])
  end.

(** ** Further scenarios *)

Definition with_dns (w : World) (f : string -> raised string) : World := {|
  paramiko_import := paramiko_import w;
  ansible_import_ok := ansible_import_ok w;
  stdin_isatty := stdin_isatty w;
  gethostbyname := f;
  ssh_connect := ssh_connect w;
  ssh_exec := ssh_exec w;
  sftp_put := sftp_put w;
  isfile := isfile w;
  readlines := readlines w
|}.

Definition with_paramiko (w : World) (r : raised unit) : World := {|
  paramiko_import := r;
  ansible_import_ok := ansible_import_ok w;
  stdin_isatty := stdin_isatty w;
  gethostbyname := gethostbyname w;
  ssh_connect := ssh_connect w;
  ssh_exec := ssh_exec w;
  sftp_put := sftp_put w;
  isfile := isfile w;
  readlines := readlines w
|}.

Definition with_sftp (w : World)
    (f : list event -> string -> string -> raised unit) : World := {|
  paramiko_import := paramiko_import w;
  ansible_import_ok := ansible_import_ok w;
  stdin_isatty := stdin_isatty w;
  gethostbyname := gethostbyname w;
  ssh_connect := ssh_connect w;
  ssh_exec := ssh_exec w;
  sftp_put := f;
  isfile := isfile w;
  readlines := readlines w
|}.

(** The host name does not resolve. *)
Definition no_dns_world : World :=
  with_dns lab (fun _ => Raises "[Errno -2] Name or service not known").

(** [import paramiko] fails. *)
Definition no_paramiko_world : World :=
  with_paramiko lab (Raises "No module named paramiko").

(** The device drops the channel when a command is sent. *)
Definition drop_world : World :=
  with_exec lab (fun _ _ => Raises "Timeout opening channel.").

(** The device answers with blanks and an empty line after the text. *)
Definition padded_world : World :=
  with_exec lab (fun _ _ =>
    Returns ("done.  " +:+ String CR (str1 LF) +:+ String CR (str1 LF))).

(** The device takes no file. *)
Definition full_disk_world : World :=
  with_sftp lost_upload_world (fun _ _ _ => Raises "Failure").

(** The script is on the local disk and cannot be read. *)
Definition unreadable_script_world : World :=
  with_files lab (fun p => String.eqb p "/home/me/setup.rsc")
    (fun _ => Raises "[Errno 13] Permission denied").

(** * Properties *)

(** ** Strings *)

Lemma prefix_true_iff (p s : string) :
  String.prefix p s = true <-> exists post, s = p +:+ post.
Proof.
  revert s. induction p as [|c p IH]; intros s; simpl.
  - split; [intros _; exists s; reflexivity | destruct s; reflexivity].
  - destruct s as [|d s]; simpl.
    + split; [discriminate | intros [post H]; discriminate].
    + destruct (ascii_dec c d) as [->|Hcd].
      * rewrite IH. split; intros [post H]; exists post; simpl in *; congruence.
      * split; [discriminate | intros [post H]; simpl in H; congruence].
Qed.

Lemma str_in_nil (sub : string) : str_in sub "" = String.prefix sub "".
Proof. unfold str_in. apply orb_false_r. Qed.

Lemma str_in_cons (sub : string) (c : ascii) (r : string) :
  str_in sub (String c r) = String.prefix sub (String c r) || str_in sub r.
Proof. reflexivity. Qed.

Lemma str_in_contains (sub s : string) :
  str_in sub s = true <-> contains sub s.
Proof.
  unfold contains. induction s as [|c s IH].
  - rewrite str_in_nil, prefix_true_iff. split.
    + intros [post H]. exists "", post. exact H.
    + intros [pre [post H]]. destruct pre; simpl in H; [eauto | discriminate].
  - rewrite str_in_cons, orb_true_iff, prefix_true_iff, IH. split.
    + intros [[post H] | [pre [post H]]].
      * exists "", post. exact H.
      * exists (String c pre), post. simpl. congruence.
    + intros [pre [post H]]. destruct pre as [|d pre]; simpl in H.
      * left. eauto.
      * right. exists pre, post. congruence.
Qed.

Lemma str_in_false (sub s : string) :
  str_in sub s = false <-> ~ contains sub s.
Proof.
  rewrite <- str_in_contains. destruct (str_in sub s); split; congruence.
Qed.

Lemma has_error_mark_iff (response : string) :
  has_error_mark response = true <->
  contains "bad command name " response
  \/ contains "syntax error " response
  \/ contains "failure: " response.
Proof.
  unfold has_error_mark. rewrite !orb_true_iff, !str_in_contains. tauto.
Qed.

(** [rstrip] keeps a prefix of its argument. *)
Lemma rstrip_prefix (s : string) : exists ws, s = rstrip s +:+ ws.
Proof.
  induction s as [|c s [ws IH]]; simpl.
  - exists "". reflexivity.
  - destruct (is_empty (rstrip s) && isspace c) eqn:E.
    + exists (String c s). reflexivity.
    + exists ws. simpl. congruence.
Qed.

Lemma append_assoc (a b c : string) : (a +:+ b) +:+ c = a +:+ (b +:+ c).
Proof. induction a as [|x a IH]; simpl; congruence. Qed.

Lemma contains_rstrip (sub s : string) :
  contains sub (rstrip s) -> contains sub s.
Proof.
  intros [pre [post H]]. destruct (rstrip_prefix s) as [ws Hws].
  exists pre, (post +:+ ws). rewrite Hws, H, !append_assoc. reflexivity.
Qed.

(** ** Change detection *)

Lemma for_else_true_iff (b a : list string) :
  for_else (zip b a) = true <->
  forall i x y, b !! i = Some x -> a !! i = Some y -> x = y.
Proof.
  revert a. induction b as [|x b IH]; intros a; simpl.
  - split; [intros _ i x y H; discriminate | reflexivity].
  - destruct a as [|y a]; simpl.
    + split; [intros _ i x' y' _ H; discriminate | reflexivity].
    + destruct (String.eqb y x) eqn:E; simpl.
      * apply String.eqb_eq in E. subst y. rewrite IH. split.
        -- intros H [|i] x' y' Hx Hy; simpl in *; [congruence | eauto].
        -- intros H i x' y' Hx Hy. exact (H (S i) x' y' Hx Hy).
      * apply String.eqb_neq in E. split; [discriminate |].
        intros H. exfalso. apply E. symmetry. exact (H 0%nat x y eq_refl eq_refl).
Qed.

Lemma for_else_false_iff (b a : list string) :
  for_else (zip b a) = false <->
  exists i x y, b !! i = Some x /\ a !! i = Some y /\ x <> y.
Proof.
  revert a. induction b as [|x b IH]; intros a; simpl.
  - split; [discriminate | intros (i & x & y & H & _); discriminate].
  - destruct a as [|y a]; simpl.
    + split; [discriminate | intros (i & x' & y' & _ & H & _); discriminate].
    + destruct (String.eqb y x) eqn:E; simpl.
      * apply String.eqb_eq in E. subst y. rewrite IH. split.
        -- intros (i & x' & y' & Hx & Hy & Hne). exists (S i), x', y'. auto.
        -- intros ([|i] & x' & y' & Hx & Hy & Hne); simpl in *.
           ++ congruence.
           ++ exists i, x', y'. auto.
      * apply String.eqb_neq in E. split; [intros _ | reflexivity].
        exists 0%nat, x, y. simpl. auto.
Qed.



Example diff_same_after_header :
  diff ("# timestamp: t0" +:+ str1 LF +:+ "a" +:+ str1 LF +:+ "b")
       ("# timestamp: t1" +:+ str1 LF +:+ "a" +:+ str1 LF +:+ "b") true = false.
Proof. reflexivity. Qed.

Example diff_line_changed :
  diff ("# timestamp: t0" +:+ str1 LF +:+ "a" +:+ str1 LF +:+ "b")
       ("# timestamp: t1" +:+ str1 LF +:+ "a" +:+ str1 LF +:+ "c") true = true.
Proof. reflexivity. Qed.

Example diff_line_added :
  diff ("# timestamp: t0" +:+ str1 LF +:+ "a")
       ("# timestamp: t1" +:+ str1 LF +:+ "a" +:+ str1 LF +:+ "b") true = true.
Proof. reflexivity. Qed.

(** With change testing on, [changed] is what [diff] makes of the dump
    taken before and the one taken now. *)
Lemma detect_change_enabled w sm module dev test_change before after
    changed tr tr' :
  truthy test_change = true ->
  sshcmd w sm module dev cmd_timeout (VStr "/export") tr = (Val after, tr') ->
  detect_change w sm module dev test_change (Some before) changed tr
  = (Val (diff before after changed), tr').
Proof.
  intros Ht Hs. unfold detect_change, bind. rewrite Ht, Hs. reflexivity.
Qed.

(** ** Rules for [spec] *)

Lemma count_app (p : event -> bool) (l1 l2 : list event) :
  count p (l1 ++ l2) = (count p l1 + count p l2)%nat.
Proof. induction l1 as [|e l1 IH]; simpl; [reflexivity | lia]. Qed.

Lemma connect_attempts_app (l1 l2 : list event) :
  connect_attempts (l1 ++ l2) = connect_attempts l1 ++ connect_attempts l2.
Proof.
  induction l1 as [|e l1 IH]; simpl; [reflexivity |].
  destruct e; simpl; congruence.
Qed.

Lemma count_pos_last (p : event -> bool) (l1 l2 : list event) :
  count p l2 = 1%nat -> last (l1 ++ l2) = last l2.
Proof.
  intros H. destruct l2 as [|e l2]; [discriminate |].
  apply last_app_cons.
Qed.

Lemma spec_ret {A} (a : A) (Q : list event -> res A -> Prop) :
  Q [] (Val a) -> spec (ret a) Q.
Proof. intros H tr. exists []. simpl. rewrite app_nil_r. auto. Qed.

Lemma spec_halt {A} (s : stop) (Q : list event -> res A -> Prop) :
  Q [] (Stop s) -> spec (halt s) Q.
Proof. intros H tr. exists []. simpl. rewrite app_nil_r. auto. Qed.

Lemma spec_emit (e : event) (Q : list event -> res unit -> Prop) :
  Q [e] (Val tt) -> spec (emit e) Q.
Proof. intros H tr. exists [e]. simpl. auto. Qed.

Lemma spec_call {A} (e : event) (oracle : list event -> A)
    (Q : list event -> res A -> Prop) :
  (forall a, Q [e] (Val a)) -> spec (call e oracle) Q.
Proof. intros H tr. exists [e]. simpl. auto. Qed.

Lemma spec_bind {A B} (m : M A) (k : A -> M B)
    (Q1 : list event -> res A -> Prop)
    (Q2 : A -> list event -> res B -> Prop)
    (Q : list event -> res B -> Prop) :
  spec m Q1 ->
  (forall a, spec (k a) (Q2 a)) ->
  (forall s1 a s2 r, Q1 s1 (Val a) -> Q2 a s2 r -> Q (s1 ++ s2) r) ->
  (forall s1 s, Q1 s1 (Stop s) -> Q s1 (Stop s)) ->
  spec (bind m k) Q.
Proof.
  intros Hm Hk Hval Hstop tr. unfold bind.
  destruct (Hm tr) as [s1 [E1 H1]].
  destruct (m tr) as [[a|s] tr1]; simpl in *; subst tr1.
  - destruct (Hk a (tr ++ s1)) as [s2 [E2 H2]].
    exists (s1 ++ s2). rewrite E2, app_assoc. eauto.
  - exists s1. auto.
Qed.

Lemma spec_try_except {A} (body : M A) (handler : string -> M A)
    (Q1 Q2 Q : list event -> res A -> Prop) :
  spec body Q1 ->
  (forall e, spec (handler e) Q2) ->
  (forall s1 e s2 r, Q1 s1 (Stop (Uncaught e)) -> Q2 s2 r -> Q (s1 ++ s2) r) ->
  (forall s1 r, Q1 s1 r -> (forall e, r <> Stop (Uncaught e)) -> Q s1 r) ->
  spec (try_except body handler) Q.
Proof.
  intros Hb Hh Hexn Hother tr. unfold try_except.
  destruct (Hb tr) as [s1 [E1 H1]].
  destruct (body tr) as [[a|[| | |e]] tr1]; simpl in *; subst tr1;
    try (exists s1; split; [reflexivity | apply Hother; [assumption | discriminate]]).
  destruct (Hh e (tr ++ s1)) as [s2 [E2 H2]].
  exists (s1 ++ s2). rewrite E2, app_assoc. eauto.
Qed.

Lemma spec_weaken {A} (m : M A) (Q1 Q2 : list event -> res A -> Prop) :
  spec m Q1 -> (forall s r, Q1 s r -> Q2 s r) -> spec m Q2.
Proof.
  intros H Himp tr. destruct (H tr) as [s [E HQ]]. exists s. auto.
Qed.

(** ** The session steps are tame *)

Lemma tame_bind sm dev {A B} (m : M A) (k : A -> M B) :
  spec m (tame sm dev) -> (forall a, spec (k a) (tame sm dev)) ->
  spec (bind m k) (tame sm dev).
Proof.
  intros Hm Hk. eapply spec_bind; [exact Hm | exact Hk | |].
  - intros s1 a s2 r [C1 K1] [C2 K2]. split.
    + rewrite connect_attempts_app, C1, C2. reflexivity.
    + rewrite count_app, K1. simpl.
      destruct r as [b|[| | |]]; auto.
      destruct K2 as [Hsm K2]. split; [exact Hsm |].
      destruct dev; [| exact K2].
      destruct K2 as [K2 L2]. split; [exact K2 |].
      rewrite (count_pos_last is_close s1 s2 K2). exact L2.
  - intros s1 s [C1 K1]. split; assumption.
Qed.

Lemma tame_ret sm dev {A} (a : A) : spec (ret a) (tame sm dev).
Proof. apply spec_ret. split; reflexivity. Qed.

Lemma tame_raise sm dev {A} (e : string) : spec (@raise A e) (tame sm dev).
Proof. apply spec_halt. split; simpl; [reflexivity | lia]. Qed.

Lemma tame_emit sm dev (e : event) :
  is_close e = false -> is_connect e = false -> spec (emit e) (tame sm dev).
Proof.
  intros Hc Hn. apply spec_emit. split; simpl.
  - destruct e; simpl in *; congruence.
  - rewrite Hc. reflexivity.
Qed.

Lemma tame_call sm dev {A} (e : event) (oracle : list event -> A) :
  is_close e = false -> is_connect e = false ->
  spec (call e oracle) (tame sm dev).
Proof.
  intros Hc Hn. apply spec_call. intros a. split; simpl.
  - destruct e; simpl in *; congruence.
  - rewrite Hc. reflexivity.
Qed.

Lemma tame_lift_raised sm dev {A} (r : raised A) :
  spec (lift_raised r) (tame sm dev).
Proof. destruct r; [apply tame_raise | apply tame_ret]. Qed.

Lemma tame_getitem sm dev (d : gmap string pyval) (k : string) :
  spec (getitem d k) (tame sm dev).
Proof.
  unfold getitem. destruct (d !! k); [apply tame_ret | apply tame_raise].
Qed.

Lemma tame_try_except sm dev {A} (body : M A) (handler : string -> M A) :
  spec body calm -> (forall e, spec (handler e) (tame sm dev)) ->
  spec (try_except body handler) (tame sm dev).
Proof.
  intros Hb Hh. eapply spec_try_except; [exact Hb | exact Hh | |].
  - intros s1 e s2 r (C1 & K1 & _) [C2 K2]. split.
    + rewrite connect_attempts_app, C1, C2. reflexivity.
    + rewrite count_app, K1. simpl.
      destruct r as [b|[| | |]]; auto.
      destruct K2 as [Hsm K2]. split; [exact Hsm |].
      destruct dev; [| exact K2].
      destruct K2 as [K2 L2]. split; [exact K2 |].
      rewrite (count_pos_last is_close s1 s2 K2). exact L2.
  - intros s1 r (C1 & K1 & Hr) Hne. split; [exact C1 |].
    destruct r as [a|[| | |e]]; try contradiction; [exact K1 |].
    exfalso. exact (Hne e eq_refl).
Qed.

Lemma calm_call_raised {A} (e : event) (oracle : list event -> raised A) :
  is_close e = false -> is_connect e = false ->
  spec (let* r := call e oracle in lift_raised r) calm.
Proof.
  intros Hc Hn tr. exists [e]. unfold bind, call. simpl.
  split; [destruct (oracle tr); reflexivity |].
  split; [destruct e; simpl in *; congruence |].
  split; [simpl; rewrite Hc; reflexivity |].
  destruct (oracle tr); exact I.
Qed.

Lemma calm_lift_raised {A} (r : raised A) : spec (lift_raised r) calm.
Proof.
  intros tr. exists []. rewrite app_nil_r.
  destruct r; simpl; repeat split; reflexivity.
Qed.

(** Leaving through [sys.exit] in standalone mode, and otherwise through
    [safe_fail]. *)
Lemma tame_exit_fail (sm : bool) (dev : option SSHClient) {A} (module : option (gmap string pyval))
    (arg : exit_arg) (kwargs : list (string * string)) :
  spec ((if sm then sys_exit arg else ret tt) ;;
        @safe_fail A module dev kwargs) (tame sm dev).
Proof.
  intros tr. unfold bind, safe_fail, sys_exit, halt, ret, emit, raise.
  destruct sm; simpl.
  - exists []. rewrite app_nil_r. repeat split; simpl; lia.
  - destruct dev as [d|], module as [params|]; simpl.
    + exists [EvClose]. repeat split.
    + exists [EvClose]. repeat split. simpl. lia.
    + exists []. rewrite app_nil_r. repeat split.
    + exists []. rewrite app_nil_r. repeat split. simpl. lia.
Qed.

(** The same with one event before [sys.exit]. *)
Lemma tame_emit_exit_fail (sm : bool) (dev : option SSHClient) {A} (module : option (gmap string pyval))
    (e : event) (arg : exit_arg) (kwargs : list (string * string)) :
  is_connect e = false ->
  spec ((if sm then emit e ;; sys_exit arg else ret tt) ;;
        @safe_fail A module dev kwargs) (tame sm dev).
Proof.
  intros Hn tr. unfold bind, safe_fail, sys_exit, halt, ret, emit, raise.
  destruct sm; simpl.
  - exists [e]. repeat split; simpl.
    + destruct e; simpl in *; congruence.
    + destruct (is_close e); simpl; lia.
  - destruct dev as [d|], module as [params|]; simpl.
    + exists [EvClose]. repeat split.
    + exists [EvClose]. repeat split. simpl. lia.
    + exists []. rewrite app_nil_r. repeat split.
    + exists []. rewrite app_nil_r. repeat split. simpl. lia.
Qed.

Ltac tame_step :=
  match goal with
  | |- spec (bind (if _ then sys_exit _ else ret tt) (fun _ => safe_fail _ _ _)) _ =>
      apply tame_exit_fail
  | |- spec (bind (if _ then bind (emit _) (fun _ => sys_exit _) else ret tt)
               (fun _ => safe_fail _ _ _)) _ =>
      apply tame_emit_exit_fail; reflexivity
  | |- spec (try_except _ _) _ => apply tame_try_except; [| intros ?]
  | |- spec (bind (call _ _) (fun r => lift_raised r)) calm =>
      apply calm_call_raised; reflexivity
  | |- spec (lift_raised _) calm => apply calm_lift_raised
  | |- spec (bind _ _) (tame _ _) => apply tame_bind; [| intros ?]
  | |- spec (ret _) _ => apply tame_ret
  | |- spec (raise _) _ => apply tame_raise
  | |- spec (getitem _ _) _ => apply tame_getitem
  | |- spec (lift_raised _) _ => apply tame_lift_raised
  | |- spec (emit _) _ => apply tame_emit; reflexivity
  | |- spec (call _ _) _ => apply tame_call; reflexivity
  | |- spec (os_path_isfile _ _) _ => unfold os_path_isfile
  | |- spec (os_path_basename _) _ => unfold os_path_basename
  | |- spec (str_add _ _) _ => unfold str_add
  | |- spec (if ?b then _ else _) _ => destruct b eqn:?
  | |- spec (match ?x with _ => _ end) _ => destruct x eqn:?
  end.

Lemma tame_sshcmd w sm module dev timeout command :
  spec (sshcmd w sm module dev timeout command) (tame sm dev).
Proof. unfold sshcmd. repeat tame_step. Qed.

Lemma tame_resolve w sm module rosdev :
  spec (resolve w sm module rosdev) (tame sm None).
Proof. unfold resolve. repeat tame_step. Qed.

Lemma tame_upload w sm module dev upload_file :
  spec (upload w sm module dev upload_file) (tame sm dev).
Proof.
  unfold upload. repeat (apply tame_sshcmd || tame_step).
Qed.

Lemma tame_run_script w sm module dev upload_script :
  spec (run_script w sm module dev upload_script) (tame sm dev).
Proof.
  unfold run_script. repeat (apply tame_sshcmd || tame_step).
Qed.

Lemma tame_run_command w sm module dev rosdev upload_file command uploaded :
  spec (run_command w sm module dev rosdev upload_file command uploaded)
    (tame sm dev).
Proof.
  unfold run_command. repeat (apply tame_sshcmd || tame_step).
Qed.

Lemma tame_execute w sm module dev rosdev upload_script upload_file command
    uploaded :
  spec (execute w sm module dev rosdev upload_script upload_file command
          uploaded) (tame sm dev).
Proof.
  unfold execute.
  repeat (apply tame_run_script || apply tame_run_command || tame_step).
Qed.

Lemma tame_detect_change w sm module dev test_change before changed :
  spec (detect_change w sm module dev test_change before changed)
    (tame sm dev).
Proof.
  unfold detect_change. repeat (apply tame_sshcmd || tame_step).
Qed.

(** ** How the session ends *)

Lemma tame_ends sm dev (P : bool -> Prop) {A} (suf : list event) (r : res A) :
  tame sm dev suf r -> ends 0 sm dev P suf r.
Proof.
  intros [C K]. split; [rewrite C; simpl; lia |].
  destruct r as [a|[| | |]]; auto; try contradiction.
  destruct K as [Hsm K]. split; [exact Hsm |]. destruct dev; [exact K | lia].
Qed.

Lemma ends_weaken n n' sm dev (P P' : bool -> Prop) {A}
    (suf : list event) (r : res A) :
  (n <= n')%nat -> (forall c, P c -> P' c) ->
  ends n sm dev P suf r -> ends n' sm None P' suf r.
Proof.
  intros Hn HP [C K]. split; [lia |].
  destruct r as [a|[o l c|kw|arg|e]]; auto.
  - destruct K as (H1 & H2 & H3 & H4). auto.
  - destruct K as [Hsm K]. split; [exact Hsm |].
    destruct dev; [destruct K as [K _]; rewrite K |]; lia.
Qed.

Lemma ends_weaken_same n n' sm dev (P P' : bool -> Prop) {A}
    (suf : list event) (r : res A) :
  (n <= n')%nat -> (forall c, P c -> P' c) ->
  ends n sm dev P suf r -> ends n' sm dev P' suf r.
Proof.
  intros Hn HP [C K]. split; [lia |].
  destruct r as [a|[o l c|kw|arg|e]]; auto.
  destruct K as (H1 & H2 & H3 & H4). auto.
Qed.

Lemma ends_bind n1 n2 sm dev (P : bool -> Prop) {A B}
    (m : M A) (k : A -> M B) :
  spec m (ends n1 sm dev P) -> (forall a, spec (k a) (ends n2 sm dev P)) ->
  spec (bind m k) (ends (n1 + n2) sm dev P).
Proof.
  intros Hm Hk. eapply spec_bind; [exact Hm | exact Hk | |].
  - intros s1 a s2 r [C1 K1] [C2 K2]. simpl in K1. split.
    + rewrite connect_attempts_app, length_app. lia.
    + rewrite count_app, K1. simpl.
      destruct r as [b|[o l c|kw|arg|e]]; auto.
      * destruct K2 as (H1 & H2 & H3 & H4). repeat split; auto.
        rewrite (count_pos_last is_close s1 s2 H2). exact H3.
      * destruct K2 as [Hsm K2]. split; [exact Hsm |].
        destruct dev; [| exact K2].
        destruct K2 as [K2 L2]. split; [exact K2 |].
        rewrite (count_pos_last is_close s1 s2 K2). exact L2.
  - intros s1 s [C1 K1]. split; [lia | exact K1].
Qed.

Lemma ends_try_except n sm dev (P : bool -> Prop) {A}
    (body : M A) (handler : string -> M A) :
  spec body attempting -> (forall e, spec (handler e) (ends n sm dev P)) ->
  spec (try_except body handler) (ends (1 + n) sm dev P).
Proof.
  intros Hb Hh. eapply spec_try_except; [exact Hb | exact Hh | |].
  - intros s1 e s2 r (C1 & K1 & _) [C2 K2]. split.
    + rewrite connect_attempts_app, length_app. lia.
    + rewrite count_app, K1. simpl.
      destruct r as [b|[o l c|kw|arg|e']]; auto.
      * destruct K2 as (H1 & H2 & H3 & H4). repeat split; auto.
        rewrite (count_pos_last is_close s1 s2 H2). exact H3.
      * destruct K2 as [Hsm K2]. split; [exact Hsm |].
        destruct dev; [| exact K2].
        destruct K2 as [K2 L2]. split; [exact K2 |].
        rewrite (count_pos_last is_close s1 s2 K2). exact L2.
  - intros s1 r (C1 & K1 & Hr) Hne. split; [lia |].
    destruct r as [a|[| | |e]]; try contradiction; [exact K1 |].
    exfalso. exact (Hne e eq_refl).
Qed.

Lemma attempting_connect_call w rosdev allow_agent look_for_keys :
  spec (device_connect_call w rosdev allow_agent look_for_keys) attempting.
Proof.
  intros tr. unfold device_connect_call, bind, getitem, call, lift_raised,
    raise, halt, ret.
  destruct (rosdev !! "ipaddress") as [ip|]; simpl;
    [| exists []; rewrite app_nil_r; repeat split; simpl; lia].
  destruct (rosdev !! "username") as [us|]; simpl;
    [| exists []; rewrite app_nil_r; repeat split; simpl; lia].
  destruct (rosdev !! "password") as [pw|]; simpl;
    [| exists []; rewrite app_nil_r; repeat split; simpl; lia].
  destruct (rosdev !! "port") as [po|]; simpl;
    [| exists []; rewrite app_nil_r; repeat split; simpl; lia].
  destruct (rosdev !! "timeout") as [ti|]; simpl;
    [| exists []; rewrite app_nil_r; repeat split; simpl; lia].
  unfold call_logged.
  match goal with
  | |- context [ssh_connect w tr ?a] =>
      exists [EvConnect a (returned (ssh_connect w tr a))];
      destruct (ssh_connect w tr a)
  end; repeat split; simpl; lia.
Qed.

Lemma tame_device_name sm dev rosdev : spec (device_name rosdev) (tame sm dev).
Proof. unfold device_name. repeat tame_step. Qed.

Lemma tame_safe_fail dev {A} (module : option (gmap string pyval))
    (kwargs : list (string * string)) :
  spec (@safe_fail A module dev kwargs) (tame false dev).
Proof.
  pose proof (tame_exit_fail false dev (A:=A) module (ExitCode 0) kwargs) as H.
  intros tr. destruct (H tr) as [suf Hs]. exists suf. exact Hs.
Qed.

(** [device_connect] logs in twice at most, and closes the handle only
    to fail the task. *)
Lemma ends_device_connect w sm module dev rosdev :
  spec (device_connect w sm module dev rosdev) (ends 2 sm dev (fun _ => False)).
Proof.
  unfold device_connect.
  change 2%nat with (0 + (2 + 0))%nat.
  apply ends_bind.
  { eapply spec_weaken; [| intros s r; apply tame_ends].
    destruct sm; [| apply tame_ret].
    apply tame_bind; [apply tame_device_name | intros name].
    apply tame_emit; reflexivity. }
  intros _. apply ends_bind.
  - change 2%nat with (1 + (1 + 0))%nat.
    apply ends_try_except; [apply attempting_connect_call | intros _].
    apply ends_try_except; [apply attempting_connect_call | intros e].
    eapply spec_weaken; [| intros s r; apply tame_ends].
    destruct sm.
    + intros tr. exists []. rewrite app_nil_r. repeat split; simpl; lia.
    + apply tame_bind; [apply tame_ret | intros _].
      apply tame_bind; [apply tame_device_name | intros name].
      apply tame_safe_fail.
  - intros _. eapply spec_weaken; [| intros s r; apply tame_ends].
    destruct sm; [apply tame_emit; reflexivity | apply tame_ret].
Qed.

Lemma ends_report sm module dev response changed :
  spec (report sm module (Some dev) response changed)
    (ends 0 sm (Some dev) (fun c => c = changed)).
Proof.
  intros tr. unfold report, bind, safe_exit, sys_exit, emit, halt, ret, raise.
  destruct sm; simpl.
  - exists [EvClose; EvPrint response]. rewrite <- app_assoc.
    repeat split; simpl; lia.
  - destruct module as [params|]; simpl; exists [EvClose];
      repeat split; simpl; lia.
Qed.

Lemma detect_change_keeps w sm module dev test_change before changed :
  spec (detect_change w sm module dev test_change before changed)
    (fun suf r =>
       tame sm dev suf r /\
       forall c, r = Val c -> truthy test_change = false -> c = changed).
Proof.
  intros tr.
  destruct (tame_detect_change w sm module dev test_change before changed tr)
    as [suf [E T]].
  exists suf. split; [exact E |]. split; [exact T |].
  intros c Hr Htc. unfold detect_change in Hr. rewrite Htc in Hr.
  simpl in Hr. congruence.
Qed.

(** The session, from the creation of the device handle on: two logins
    at most; [exit_json] and [fail_json] belong to pipeline mode and come
    after exactly one [close] of the handle, which is the last event;
    [changed] is reported as line 204 set it when change testing is
    off. *)
Lemma ends_session w sm rq rosdev changed :
  spec (session w sm rq rosdev changed)
    (ends 2 sm (Some sshclient)
       (fun c => truthy (rq_test_change rq) = false -> c = changed)).
Proof.
  unfold session.
  set (P := fun c : bool => truthy (rq_test_change rq) = false -> c = changed).
  set (dev := sshclient).
  change 2%nat with (2 + 0)%nat. apply ends_bind.
  { eapply spec_weaken; [apply ends_device_connect |].
    intros s r. apply ends_weaken_same; [lia | contradiction]. }
  intros _. change 0%nat with (0 + 0)%nat. apply ends_bind.
  { eapply spec_weaken; [| intros s r; apply tame_ends].
    destruct (truthy (rq_test_change rq)); [| apply tame_ret].
    apply tame_bind; [apply tame_sshcmd | intros b; apply tame_ret]. }
  intros before. change 0%nat with (0 + 0)%nat. apply ends_bind.
  { eapply spec_weaken; [apply tame_upload | intros s r; apply tame_ends]. }
  intros uploaded. change 0%nat with (0 + 0)%nat. apply ends_bind.
  { eapply spec_weaken; [apply tame_execute | intros s r; apply tame_ends]. }
  intros response.
  eapply spec_bind;
    [apply detect_change_keeps | intros c; apply ends_report | |].
  - intros s1 c s2 r [[C1 K1] Hc] [C2 K2]. simpl in K1.
    assert (HP : forall c', c' = c -> P c').
    { intros c' -> Htc. exact (Hc c eq_refl Htc). }
    split.
    + rewrite connect_attempts_app, length_app, C1. simpl. lia.
    + rewrite count_app, K1. simpl.
      destruct r as [b|[o l c'|kw|arg|e]]; auto.
      * destruct K2 as (H1 & H2 & H3 & H4). repeat split; auto.
        rewrite (count_pos_last is_close s1 s2 H2). exact H3.
      * destruct K2 as [Hsm [K2 L2]]. repeat split; auto.
        rewrite (count_pos_last is_close s1 s2 K2). exact L2.
  - intros s1 s [T _]. apply tame_ends. exact T.
Qed.

(** The whole of [main] after the request is read. *)
Lemma ends_main_body w sm rq changed :
  spec (main_body w sm rq changed)
    (ends 2 sm None
       (fun c => truthy (rq_test_change rq) = false -> c = changed)).
Proof.
  unfold main_body. change 2%nat with (0 + 2)%nat. apply ends_bind.
  { eapply spec_weaken; [apply tame_resolve | intros s r; apply tame_ends]. }
  intros rosdev. eapply spec_weaken; [apply ends_session |].
  intros s r. apply ends_weaken; auto.
Qed.

(** ** Classification of command output *)

Lemma sshcmd_returned w sm module dev timeout command response tr :
  ssh_exec w tr command = Returns response ->
  sshcmd w sm module dev timeout command tr =
  (if has_error_mark response
   then
     ((if sm then
         emit (EvPrint ("Command: " +:+ py_str command)) ;;
         sys_exit (ExitMessage ("Error: " +:+ response))
       else ret tt) ;;
      safe_fail module dev
        [("msg", "bad command name or syntax error");
         ("description", "bad command name or syntax error")])
       (tr ++ [EvExec command timeout])
   else (Val (rstrip response), tr ++ [EvExec command timeout])).
Proof.
  intros H. unfold sshcmd, try_except, has_error_mark.
  unfold bind at 1. unfold bind at 1. unfold call. rewrite H. simpl.
  destruct (str_in "bad command name " response); simpl; [reflexivity |].
  destruct (str_in "syntax error " response); simpl; [reflexivity |].
  destruct (str_in "failure: " response); reflexivity.
Qed.

(** C2.  When [exec_command] returns, [sshcmd] rejects the response,
    ending the task with the command error, exactly when the response
    contains "bad command name ", "syntax error " or "failure: "; a
    response that contains "syntax error " is rejected whatever surrounds
    it; a response with none of the three is returned, stripped of
    trailing white space. *)
Theorem sshcmd_classification w sm module dev timeout command response tr :
  ssh_exec w tr command = Returns response ->
  let marked :=
    contains "bad command name " response
    \/ contains "syntax error " response
    \/ contains "failure: " response in
  let result := sshcmd w sm module dev timeout command tr in
  (marked <-> exists s, fst result = Stop s)
  /\ (marked ->
      exists s, fst result = Stop s
      /\ (sm = true -> s = SysExit (ExitMessage ("Error: " +:+ response)))
      /\ (sm = false -> is_Some module ->
          s = FailJson [("msg", "bad command name or syntax error");
                        ("description", "bad command name or syntax error")]))
  /\ (contains "syntax error " response -> exists s, fst result = Stop s)
  /\ (~ marked ->
      result = (Val (rstrip response), tr ++ [EvExec command timeout])).
Proof.
  intros H marked result.
  assert (Hmark : marked <-> has_error_mark response = true)
    by (symmetry; apply has_error_mark_iff).
  assert (Hrej : marked ->
      exists s, fst result = Stop s
      /\ (sm = true -> s = SysExit (ExitMessage ("Error: " +:+ response)))
      /\ (sm = false -> is_Some module ->
          s = FailJson [("msg", "bad command name or syntax error");
                        ("description", "bad command name or syntax error")])).
  { intros Hm. apply Hmark in Hm. unfold result.
    rewrite (sshcmd_returned _ _ _ _ _ _ _ _ H), Hm.
    unfold bind, safe_fail, sys_exit, emit, halt, ret, raise.
    destruct sm; simpl.
    - eexists. split; [reflexivity |]. split; [reflexivity | discriminate].
    - destruct dev, module; simpl; eexists; (split; [reflexivity |]);
        (split; [discriminate |]); intros _ [x Hx];
        first [reflexivity | discriminate]. }
  assert (Hok : ~ marked ->
      result = (Val (rstrip response), tr ++ [EvExec command timeout])).
  { intros Hm. unfold result. rewrite (sshcmd_returned _ _ _ _ _ _ _ _ H).
    destruct (has_error_mark response) eqn:E; [| reflexivity].
    exfalso. apply Hm, Hmark. reflexivity. }
  repeat split.
  - intros Hm. destruct (Hrej Hm) as [s [Hs _]]. eauto.
  - intros [s Hs]. destruct (has_error_mark response) eqn:E.
    + apply Hmark. reflexivity.
    + assert (Hn : ~ marked) by (rewrite Hmark; congruence).
      rewrite (Hok Hn) in Hs. discriminate.
  - exact Hrej.
  - intros Hc. destruct (Hrej (or_intror (or_introl Hc))) as [s [Hs _]]. eauto.
  - exact Hok.
Qed.

(** A rejected command in pipeline mode. *)
Lemma sshcmd_classification_witness :
  ssh_exec typo_world [] (VStr "/ip addres print")
  = Returns "syntax error (line 1 column 5)"
  /\ exists s,
       fst (sshcmd typo_world false (Some ∅) (Some sshclient) cmd_timeout
              (VStr "/ip addres print") []) = Stop s.
Proof.
  split; [reflexivity |].
  apply (sshcmd_classification typo_world false (Some ∅) (Some sshclient)
           cmd_timeout (VStr "/ip addres print")
           "syntax error (line 1 column 5)" [] eq_refl).
  exists "", "(line 1 column 5)". reflexivity.
Defined.

Example sshcmd_accepts :
  sshcmd lab true None (Some sshclient) cmd_timeout (VStr "/system reboot") []
  = (Val "", [EvExec (VStr "/system reboot") 30]).
Proof. reflexivity. Qed.

(** ** The changed flag *)




Example unchanged_run :
  fst (run (main_body stable_world false (print_request true) true))
  = Stop (ExitJson "" [] false).
Proof. reflexivity. Qed.

(** ** Logging in *)

Lemma tame_sys_exit dev {A} (arg : exit_arg) :
  spec (@sys_exit A arg) (tame true dev).
Proof. apply spec_halt. repeat split. simpl. lia. Qed.

Lemma tame_usage_exit dev {A} (usage : string) (arg : exit_arg) :
  spec (emit (EvPrint usage) ;; @sys_exit A arg) (tame true dev).
Proof.
  intros tr. exists [EvPrint usage]. repeat split. simpl. lia.
Qed.

Lemma tame_parse_opt options opt : spec (parse_opt options opt) (tame true None).
Proof.
  unfold parse_opt. destruct (startswith opt "--"); [| apply tame_ret].
  destruct (split_eq1 opt) as [[arg val]|];
    match goal with
    | |- context [if ?b then _ else _] => destruct b
    end; first [apply tame_ret | apply tame_usage_exit].
Qed.

Lemma tame_parse_loop cmdline :
  forall options, spec (parse_loop options cmdline) (tame true None).
Proof.
  induction cmdline as [|opt rest IH]; intros options; simpl.
  - apply tame_ret.
  - apply tame_bind; [apply tame_parse_opt | intros o; apply IH].
Qed.

Lemma tame_parse_opts cmdline : spec (parse_opts cmdline) (tame true None).
Proof.
  unfold parse_opts. apply tame_bind; [apply tame_parse_loop | intros o].
  destruct (negb (dict_has o "hostname"));
    [apply tame_usage_exit | apply tame_ret].
Qed.

Lemma tame_pipeline_request w task :
  spec (pipeline_request w task) (tame false None).
Proof.
  unfold pipeline_request, AnsibleModule.
  repeat first
    [ apply tame_safe_fail
    | apply spec_halt; repeat split; reflexivity
    | tame_step ].
Qed.

Lemma tame_shell_request w SHELLOPTS :
  spec (shell_request w SHELLOPTS) (tame true None).
Proof.
  unfold shell_request.
  repeat first [apply tame_sys_exit | apply tame_usage_exit | tame_step].
Qed.

Lemma ends_main w sm SHELLOPTS task :
  spec (main w sm SHELLOPTS task) (ends 2 sm None (fun _ => True)).
Proof.
  unfold main. change 2%nat with (0 + 2)%nat. apply ends_bind.
  - eapply spec_weaken; [| intros s r; apply tame_ends].
    destruct sm; simpl; [apply tame_shell_request | apply tame_pipeline_request].
  - intros rq. eapply spec_weaken; [apply ends_main_body |].
    intros s r. apply ends_weaken_same; auto.
Qed.

(** A whole run logs in twice at most, and ends through [exit_json] only
    after closing the handle, once, as the last thing it does. *)
Lemma ends_dunder_main w argv task :
  spec (dunder_main w argv task) (ends 2 (standalone w argv) None (fun _ => True)).
Proof.
  unfold dunder_main, standalone.
  destruct ((1 <? length argv)%nat || SHELLMODE_at_import w).
  - change 2%nat with (0 + (0 + 2))%nat. apply ends_bind.
    { eapply spec_weaken; [apply (tame_emit true None); reflexivity |].
      intros s r. apply tame_ends. }
    intros _. apply ends_bind.
    { eapply spec_weaken; [apply tame_parse_opts | intros s r; apply tame_ends]. }
    intros o. apply ends_main.
  - apply ends_main.
Qed.

Ltac give_suffix :=
  first
    [ exists []; split; [rewrite app_nil_r; reflexivity |]
    | eexists; split; [rewrite <- ?app_assoc; simpl; reflexivity |] ].

(** What [device_connect] does, by what the device answers to the
    logins. *)
Lemma device_connect_by_outcome w sm module dev rosdev hostname a tr :
  rosdev !! "hostname" = Some hostname ->
  login_for rosdev a ->
  default_auth a ->
  let t1 := tr ++ opening sm hostname a in
  let t2 := t1 ++ [EvConnect a false] in
  let a' := without_agent_and_keys a in
  let out := device_connect w sm module dev rosdev tr in
  exists suf,
    snd out = tr ++ suf /\
    match ssh_connect w t1 a with
    | Returns _ => connect_attempts suf = [(a, true)] /\ fst out = Val tt
    | Raises _ =>
        match ssh_connect w t2 a' with
        | Returns _ =>
            connect_attempts suf = [(a, false); (a', true)]
            /\ fst out = Val tt
        | Raises _ =>
            connect_attempts suf = [(a, false); (a', false)]
            /\ exists s, fst out = Stop s /\ connection_error sm module s
        end
    end.
Proof.
  intros Hhost (Hip & Hu & Hpw & Hpo & Hti) [Hag Hlk] t1 t2 a' out.
  subst t1 t2 a' out.
  destruct a as [ip u pw po ti ag lk].
  cbn [ca_address ca_username ca_password ca_port ca_timeout ca_allow_agent
       ca_look_for_keys] in *.
  subst ag lk.
  unfold device_connect, device_connect_call, device_name, try_except, bind,
    getitem, call_logged, lift_raised, safe_fail, sys_exit, raise, halt,
    emit, ret, connection_error, opening, without_agent_and_keys.
  rewrite !Hhost, !Hip, !Hu, !Hpw, !Hpo, !Hti.
  destruct sm; cbn [ca_address ca_username ca_password ca_port ca_timeout
                    fst snd];
    rewrite ?app_nil_r;
    repeat match goal with
      | |- context [ssh_connect ?w' ?t ?x] =>
          destruct (ssh_connect w' t x) as [?|[]] eqn:?;
          cbn [fst snd returned]
      end;
    try (destruct dev, module; unfold bind; simpl);
    give_suffix; simpl;
    first
      [ split; reflexivity
      | split; [reflexivity |]; eexists; split; [reflexivity |];
        split; [intros Hsm | intros Hsm Hm];
        first [ discriminate Hsm
              | eexists; reflexivity
              | eexists; eexists; reflexivity
              | destruct Hm; discriminate ] ].
Qed.

(** Case analysis on every key and condition that [H] reads. *)
Ltac read_keys H :=
  repeat (first
            [ discriminate H
            | match type of H with
              | context [if ?b then _ else _] => destruct b eqn:?
              | context [match ?m !! ?k with _ => _ end] =>
                  destruct (m !! k) eqn:?
              end ];
          unfold bind, ret in H; cbv beta iota in H).

(** A request that either entry path returns has the keys that the
    login reads. *)
Lemma pipeline_request_keys w task tr rq tr1 k :
  pipeline_request w task tr = (Val rq, tr1) ->
  In k ["hostname"; "username"; "password"; "port"; "timeout"] ->
  is_Some (rq_rosdev rq !! k).
Proof.
  unfold pipeline_request, AnsibleModule, getitem, bind, ret, safe_fail,
    halt, raise.
  destruct (dict_has task "hostname"); [| discriminate].
  destruct (paramiko_import w); [discriminate |]. cbv beta iota.
  intros H Hk. read_keys H. injection H as <- <-.
  simpl in Hk.
  destruct Hk as [<-|[<-|[<-|[<-|[<-|[]]]]]]; eexists; reflexivity.
Qed.

Lemma shell_request_keys w SHELLOPTS tr rq tr1 k :
  shell_request w SHELLOPTS tr = (Val rq, tr1) ->
  In k ["hostname"; "username"; "password"; "port"; "timeout"] ->
  is_Some (rq_rosdev rq !! k).
Proof.
  unfold shell_request, getitem, bind, ret, sys_exit, emit, halt, raise.
  destruct (paramiko_import w); [discriminate |]. cbv beta iota.
  destruct SHELLOPTS as [o|]; [| discriminate]. cbv beta iota.
  intros H Hk. read_keys H. injection H as <- <-.
  simpl in Hk.
  destruct Hk as [<-|[<-|[<-|[<-|[<-|[]]]]]]; eexists; reflexivity.
Qed.

(** [resolve] adds the address and keeps what is there. *)
Lemma resolve_keys w sm module rosdev0 tr rosdev tr1 :
  resolve w sm module rosdev0 tr = (Val rosdev, tr1) ->
  is_Some (rosdev !! "ipaddress")
  /\ forall k, is_Some (rosdev0 !! k) -> is_Some (rosdev !! k).
Proof.
  unfold resolve, getitem, bind, ret, raise, halt, safe_fail, sys_exit.
  destruct (rosdev0 !! "hostname") as [[| | |h]|]; try discriminate.
  destruct (gethostbyname w h) as [e|address].
  - destruct sm, module; discriminate.
  - intros [= <- <-]. split.
    + rewrite lookup_insert. destruct (decide _); [eauto | contradiction].
    + intros k Hk. rewrite lookup_insert. destruct (decide _); eauto.
Qed.

(** The [rosdev] that [main] hands to the session has every key that
    [device_connect] reads. *)
Lemma session_login_keys w sm SHELLOPTS task tr rq tr1 rosdev tr2 :
  (if negb sm then pipeline_request w task else shell_request w SHELLOPTS) tr
  = (Val rq, tr1) ->
  resolve w sm (rq_module rq) (rq_rosdev rq) tr1 = (Val rosdev, tr2) ->
  exists hostname a,
    rosdev !! "hostname" = Some hostname /\ login_for rosdev a
    /\ default_auth a.
Proof.
  intros Hrq Hres.
  assert (Hk : forall k,
             In k ["hostname"; "username"; "password"; "port"; "timeout"] ->
             is_Some (rq_rosdev rq !! k)).
  { intros k Hin. destruct sm; simpl in Hrq.
    - exact (shell_request_keys _ _ _ _ _ _ Hrq Hin).
    - exact (pipeline_request_keys _ _ _ _ _ _ Hrq Hin). }
  destruct (resolve_keys _ _ _ _ _ _ _ Hres) as [[ip Hip] Hkeep].
  assert (K : forall k,
             In k ["hostname"; "username"; "password"; "port"; "timeout"] ->
             is_Some (rosdev !! k)) by (intros k Hin; apply Hkeep, Hk, Hin).
  destruct (K "hostname") as [h Hh]; [simpl; tauto |].
  destruct (K "username") as [u Hu]; [simpl; tauto |].
  destruct (K "password") as [pw Hpw]; [simpl; tauto |].
  destruct (K "port") as [po Hpo]; [simpl; tauto |].
  destruct (K "timeout") as [ti Hti]; [simpl; tauto |].
  exists h, (ConnectArgs ip u pw po ti true true).
  split; [exact Hh |]. split; [| split; reflexivity].
  repeat split; assumption.
Qed.

(** C5.  Whenever [rosdev] holds the host name and the five values that
    [device.connect] is given, as it does in every session that [main]
    starts, [device_connect] makes a first login with the default agent
    and key options; when the device accepts it that is the only one;
    when it fails there is exactly one more, with the agent and the key
    search turned off; when that fails too the task ends with the
    connection error.  No run of the script logs in a third time. *)
Theorem authentication_at_most_twice :
  (forall w sm module dev rosdev hostname a tr,
     rosdev !! "hostname" = Some hostname ->
     login_for rosdev a ->
     default_auth a ->
     let t1 := tr ++ opening sm hostname a in
     let t2 := t1 ++ [EvConnect a false] in
     let a' := without_agent_and_keys a in
     let out := device_connect w sm module dev rosdev tr in
     exists suf,
       snd out = tr ++ suf /\
       match ssh_connect w t1 a with
       | Returns _ => connect_attempts suf = [(a, true)] /\ fst out = Val tt
       | Raises _ =>
           match ssh_connect w t2 a' with
           | Returns _ =>
               connect_attempts suf = [(a, false); (a', true)]
               /\ fst out = Val tt
           | Raises _ =>
               connect_attempts suf = [(a, false); (a', false)]
               /\ exists s, fst out = Stop s /\ connection_error sm module s
           end
       end)
  /\
  (forall w sm SHELLOPTS task tr rq tr1 rosdev tr2,
     (if negb sm then pipeline_request w task else shell_request w SHELLOPTS)
       tr = (Val rq, tr1) ->
     resolve w sm (rq_module rq) (rq_rosdev rq) tr1 = (Val rosdev, tr2) ->
     exists hostname a,
       rosdev !! "hostname" = Some hostname /\ login_for rosdev a
       /\ default_auth a)
  /\
  (forall w argv task,
     (length (connect_attempts (snd (run (dunder_main w argv task)))) <= 2)%nat).
Proof.
  split; [exact device_connect_by_outcome |].
  split; [exact session_login_keys |].
  intros w argv task. unfold run.
  destruct (ends_dunder_main w argv task []) as [suf [E [C _]]].
  rewrite E. exact C.
Qed.

Lemma authentication_at_most_twice_witness :
  exists suf,
    snd (device_connect password_world false (Some ∅) (Some sshclient)
           login_rosdev []) = [] ++ suf
    /\ connect_attempts suf
       = [(login_args true true, false); (login_args false false, true)]
    /\ fst (device_connect password_world false (Some ∅) (Some sshclient)
              login_rosdev []) = Val tt.
Proof.
  assert (Hk : login_for login_rosdev (login_args true true))
    by (repeat split; reflexivity).
  assert (Hd : default_auth (login_args true true)) by (split; reflexivity).
  destruct (proj1 authentication_at_most_twice password_world false (Some ∅)
              (Some sshclient) login_rosdev (VStr "router")
              (login_args true true) [] eq_refl Hk Hd) as [suf [E H]].
  exists suf. split; [exact E | exact H].
Defined.

Example login_by_password :
  run (device_connect password_world false (Some ∅) (Some sshclient)
         login_rosdev)
  = (Val tt, [EvConnect (login_args true true) false;
              EvConnect (login_args false false) true]).
Proof. reflexivity. Qed.

Example login_refused :
  run (device_connect locked_world false (Some ∅) (Some sshclient)
         login_rosdev)
  = (Stop (FailJson
             [("msg", "Authentication failed.");
              ("description",
               "error opening ssh connection to router(192.0.2.1:22)")]),
     [EvConnect (login_args true true) false;
      EvConnect (login_args false false) false; EvClose]).
Proof. reflexivity. Qed.

Example login_refused_standalone :
  run (device_connect locked_world true None (Some sshclient) login_rosdev)
  = (Stop (SysExit (ExitMessage ("failed!" +:+ str1 LF
                                 +:+ "SSH error: Authentication failed."))),
     [EvWrite "Opening SSH connection to router(192.0.2.1:22)... ";
      EvConnect (login_args true true) false;
      EvConnect (login_args false false) false]).
Proof. reflexivity. Qed.

(** ** Releasing the session *)

(** In pipeline mode, whatever the device and the files do, a session
    that ends through [exit_json] or [fail_json] has closed the handle
    exactly once, and that [close] is its last event. *)
Lemma pipeline_session_closes_once w rq rosdev changed tr r tr' :
  session w false rq rosdev changed tr = (r, tr') ->
  exists suf, tr' = tr ++ suf /\
    match r with
    | Stop (ExitJson _ _ _) | Stop (FailJson _) =>
        count is_close suf = 1%nat /\ last suf = Some EvClose
    | _ => (count is_close suf <= 1)%nat
    end.
Proof.
  intros H.
  destruct (ends_session w false rq rosdev changed tr) as [suf [E [_ K]]].
  rewrite H in E, K. simpl in E, K. exists suf. split; [exact E |].
  destruct r as [a|[o l c|kw|arg|e]]; first [tauto | lia].
Qed.

(** In standalone mode [sshcmd] never closes the handle, however it
    ends. *)
Lemma standalone_sshcmd_never_closes w module dev timeout command tr :
  count is_close (snd (sshcmd w true module dev timeout command tr))
  = count is_close tr.
Proof.
  unfold sshcmd, try_except, bind, call, lift_raised, sys_exit, raise, halt,
    emit, ret.
  destruct (ssh_exec w tr command) as [e|response]; simpl.
  - rewrite count_app. simpl. lia.
  - destruct (str_in "bad command name " response),
      (str_in "syntax error " response), (str_in "failure: " response);
      simpl; rewrite ?count_app; simpl; lia.
Qed.

(** C4.  Standalone mode, a command the device rejects with "syntax
    error ": the script leaves through [sys.exit] and its events hold no
    [close] of the device handle, where the specification has the
    session released exactly once.  Pipeline mode closes it once for the
    same rejection. *)
Theorem standalone_rejection_leaves_session_open :
  let standalone_run := run (dunder_main typo_world typo_argv ∅) in
  let pipeline_run :=
    run (dunder_main typo_world ["mikrotik_command.py"] typo_task) in
  fst standalone_run
  = Stop (SysExit (ExitMessage "Error: syntax error (line 1 column 5)"))
  /\ In (EvExec (VStr "/ip addres print") 30) (snd standalone_run)
  /\ count is_close (snd standalone_run) = 0%nat
  /\ fst pipeline_run
     = Stop (FailJson [("msg", "bad command name or syntax error");
                       ("description", "bad command name or syntax error")])
  /\ count is_close (snd pipeline_run) = 1%nat.
Proof.
  vm_compute. repeat split. tauto.
Qed.

(** The device drops the channel when a command is sent. *)
Example standalone_transport_error_leaves_session_open :
  let r := run (dunder_main
                  (with_exec lab (fun _ _ => Raises "Timeout opening channel."))
                  typo_argv ∅) in
  fst r = Stop (SysExit (ExitMessage
                           "SSH command error: Timeout opening channel."))
  /\ count is_close (snd r) = 0%nat.
Proof. vm_compute. split; reflexivity. Qed.

Example standalone_success_closes_once :
  let r := run (dunder_main lab typo_argv ∅) in
  fst r = Stop (SysExit (ExitCode 0)) /\ count is_close (snd r) = 1%nat.
Proof. vm_compute. split; reflexivity. Qed.

(** ** Uploading a file *)




Example upload_failure_standalone :
  upload lost_upload_world true None (Some sshclient)
    (VStr "/home/me/.ssh/id_rsa.pub") []
  = (Stop (SysExit (ExitMessage "Error uploading file: id_rsa.pub")),
     [EvSftpOpen; EvSftpPut "/home/me/.ssh/id_rsa.pub" "id_rsa.pub";
      EvSftpClose; EvExec (VStr (file_query "id_rsa.pub")) 30; EvClose]).
Proof. reflexivity. Qed.

Example upload_failure_run :
  let r := run (dunder_main lost_upload_world ["mikrotik_command.py"]
                  import_task) in
  fst r = Stop (FailJson [("msg", "upload failed!");
                          ("description", "error uploading file: id_rsa.pub")])
  /\ count is_close (snd r) = 1%nat
  /\ last (snd r) = Some EvClose.
Proof. vm_compute. repeat split. Qed.

(** ** Skipped uploads and the key import *)

Lemma truthy_nonempty (f : string) : f <> "" -> truthy (VStr f) = true.
Proof. destruct f; [contradiction | reflexivity]. Qed.

(** An upload file that is not on the local disk is passed over. *)
Lemma upload_skipped w sm module dev f tr :
  isfile w f = false -> upload w sm module dev (VStr f) tr = (Val None, tr).
Proof.
  intros H. unfold upload, os_path_isfile, bind, ret. simpl.
  destruct (negb (is_empty f)); simpl; rewrite ?H; reflexivity.
Qed.

(** An upload that returns has bound [uploaded] to the file's name. *)
Lemma upload_present w sm module dev f tr0 uploaded tr :
  f <> "" -> isfile w f = true ->
  upload w sm module dev (VStr f) tr0 = (Val uploaded, tr) ->
  uploaded = Some (basename f).
Proof.
  intros Hf Hfile. unfold upload, os_path_isfile, os_path_basename.
  rewrite (truthy_nonempty f Hf).
  unfold bind at 1. unfold ret at 1. rewrite Hfile.
  unfold bind at 1. unfold ret at 1.
  unfold bind at 1. unfold emit at 1.
  unfold bind at 1. unfold bind at 1. unfold call at 1. unfold lift_raised.
  destruct (sftp_put w _ _ _); [discriminate |].
  unfold ret at 1. unfold bind at 1. unfold emit at 1. unfold bind at 1.
  destruct (sshcmd w sm module dev cmd_timeout _ _) as [[response|s] tr2];
    [| discriminate].
  destruct (negb (str_in (basename f) response)).
  - unfold bind, safe_fail, sys_exit, emit, halt, ret, raise.
    destruct sm, dev, module; discriminate.
  - unfold ret. congruence.
Qed.

(** Without the script branch, lines 285-320 run the command branch. *)
Lemma execute_without_script w sm module dev rosdev upload_script upload_file
    command uploaded tr :
  script_skipped w upload_script ->
  execute w sm module dev rosdev upload_script upload_file command uploaded tr
  = (let* response :=
       run_command w sm module dev rosdev upload_file command uploaded in
     ret (with_crlf response)) tr.
Proof.
  intros Hs. unfold execute, os_path_isfile.
  assert (E : (if truthy upload_script
               then match upload_script with
                    | VStr p => ret (isfile w p)
                    | _ => raise "TypeError"
                    end
               else ret false) tr = (Val false, tr)).
  { destruct Hs as [-> | [p [-> Hp]]]; [reflexivity |].
    destruct (truthy (VStr p)); rewrite ?Hp; reflexivity. }
  unfold bind at 1. rewrite E. reflexivity.
Qed.

(** C9.  The upload file is set and is not on the local disk, and the
    command is exactly 'user ssh-keys import': the upload is passed over,
    and line 316 then reads [uploaded], which was never bound.  The task
    ends with that exception before any command reaches the device, where
    the specification has no error of any kind and the command
    executed. *)
Theorem missing_upload_file_breaks_import :
  let r := run (dunder_main lab ["mikrotik_command.py"] missing_key_task) in
  missing_key_task !! "upload_file" = Some (VStr "/home/me/.ssh/missing.pub")
  /\ isfile lab "/home/me/.ssh/missing.pub" = false
  /\ fst r = Stop (Uncaught "UnboundLocalError")
  /\ snd r = [EvConnect (ConnectArgs (VStr "192.0.2.1") (VStr "ansible")
                           VNone (VInt 22) (VInt 30) true true) true].
Proof. vm_compute. repeat split. Qed.

(** For any other command the missing upload file goes unnoticed. *)
Example missing_upload_file_other_command :
  fst (run (dunder_main lab ["mikrotik_command.py"]
              (<["command" := VStr "/system reboot"]> missing_key_task)))
  = Stop (ExitJson "" [] true).
Proof. vm_compute. reflexivity. Qed.

(** C10 as the specification states it fails when the script branch
    runs: the key is on the local disk and the command is exactly
    'user ssh-keys import', the task succeeds, and the device never
    receives the import command. *)
Lemma import_with_script_counterexample :
  let r := run (dunder_main import_world ["mikrotik_command.py"]
                  import_with_script_task) in
  import_with_script_task !! "upload_file"
  = Some (VStr "/home/me/.ssh/id_rsa.pub")
  /\ isfile import_world "/home/me/.ssh/id_rsa.pub" = true
  /\ import_with_script_task !! "command" = Some (VStr "user ssh-keys import")
  /\ fst r = Stop (ExitJson "" [] true)
  /\ ~ In (EvExec (VStr (ssh_keys_import "id_rsa.pub" "ansible")) 30) (snd r).
Proof.
  vm_compute. repeat split. intros H.
  repeat (destruct H as [H|H]; [discriminate H |]). exact H.
Qed.

(** C10, amended.  When line 285 does not take the script branch: with
    the upload file on the local disk and uploaded, a string for
    [username], and the command exactly 'user ssh-keys import', what the
    device is sent is the import command naming the uploaded file and the
    user; and any command other than 'user ssh-keys import' is sent as it
    is. *)
Theorem ssh_keys_import_without_script :
  (forall w sm module dev rosdev upload_script f username uploaded tr0 tr,
     script_skipped w upload_script ->
     f <> "" -> isfile w f = true ->
     upload w sm module dev (VStr f) tr0 = (Val uploaded, tr) ->
     rosdev !! "username" = Some (VStr username) ->
     execute w sm module dev rosdev upload_script (VStr f)
       (VStr "user ssh-keys import") uploaded tr
     = (let* response :=
          sshcmd w sm module dev cmd_timeout
            (VStr (ssh_keys_import (basename f) username)) in
        ret (with_crlf response)) tr)
  /\
  (forall w sm module dev rosdev upload_script upload_file command uploaded tr,
     script_skipped w upload_script ->
     eq_str command "user ssh-keys import" = false ->
     execute w sm module dev rosdev upload_script upload_file command
       uploaded tr
     = (let* response := sshcmd w sm module dev cmd_timeout command in
        ret (with_crlf response)) tr).
Proof.
  split.
  - intros w sm module dev rosdev upload_script f username uploaded tr0 tr
      Hs Hf Hfile Hup Huser.
    rewrite (execute_without_script _ _ _ _ _ _ _ _ _ _ Hs).
    rewrite (upload_present _ _ _ _ _ _ _ _ Hf Hfile Hup).
    unfold run_command, getitem, str_add, ssh_keys_import.
    rewrite (truthy_nonempty f Hf), Huser.
    unfold bind, ret. simpl. rewrite append_assoc. reflexivity.
  - intros w sm module dev rosdev upload_script upload_file command uploaded
      tr Hs Hc.
    rewrite (execute_without_script _ _ _ _ _ _ _ _ _ _ Hs).
    unfold run_command. rewrite Hc, andb_false_r. reflexivity.
Qed.

Lemma ssh_keys_import_without_script_witness :
  execute import_world false (Some ∅) (Some sshclient) login_rosdev VNone
    (VStr "/home/me/.ssh/id_rsa.pub") (VStr "user ssh-keys import")
    (Some "id_rsa.pub") import_upload_trace
  = (Val "",
     import_upload_trace
     ++ [EvExec (VStr (ssh_keys_import "id_rsa.pub" "ansible")) 30])
  /\
  execute import_world false (Some ∅) (Some sshclient) login_rosdev VNone
    (VStr "/home/me/.ssh/id_rsa.pub") (VStr "/system reboot")
    (Some "id_rsa.pub") import_upload_trace
  = (Val "", import_upload_trace ++ [EvExec (VStr "/system reboot") 30]).
Proof.
  destruct ssh_keys_import_without_script as [Himport Hother].
  split.
  - rewrite (Himport import_world false (Some ∅) (Some sshclient) login_rosdev
               VNone "/home/me/.ssh/id_rsa.pub" "ansible" (Some "id_rsa.pub")
               [] import_upload_trace).
    + reflexivity.
    + left. reflexivity.
    + discriminate.
    + reflexivity.
    + reflexivity.
    + reflexivity.
  - rewrite (Hother import_world false (Some ∅) (Some sshclient) login_rosdev
               VNone (VStr "/home/me/.ssh/id_rsa.pub") (VStr "/system reboot")
               (Some "id_rsa.pub") import_upload_trace).
    + reflexivity.
    + left. reflexivity.
    + reflexivity.
Defined.

(** ** Standalone argument parsing *)


Lemma parse_opt_eq (options : gmap string pyval) (opt : string) tr :
  parse_opt options opt tr =
  if startswith opt "--" then
    if dict_has options (opt_name opt) || String.eqb (opt_name opt) "hostname"
    then (Val (<[opt_name opt := opt_value opt]> options), tr)
    else (Stop (SysExit (ExitMessage ("Unknown option: --" +:+ opt_name opt))),
          tr ++ [EvPrint SHELL_USAGE])
  else (Val options, tr).
Proof.
  unfold parse_opt, opt_name, opt_value.
  destruct (startswith opt "--"); [| reflexivity].
  destruct (split_eq1 opt) as [[arg val]|];
    match goal with
    | |- context [if ?b then _ else _] => destruct b
    end; reflexivity.
Qed.

Lemma dict_has_insert (d : gmap string pyval) (a k : string) (v : pyval) :
  dict_has (<[a := v]> d) k = String.eqb a k || dict_has d k.
Proof.
  unfold dict_has. rewrite lookup_insert.
  destruct (decide (a = k)) as [->|Hne].
  - rewrite String.eqb_refl. reflexivity.
  - apply String.eqb_neq in Hne. rewrite Hne. reflexivity.
Qed.

Lemma keys_ok_SHELLDEFS : keys_ok SHELLDEFS.
Proof. intros k. reflexivity. Qed.

Lemma keys_ok_insert (options : gmap string pyval) (a : string) (v : pyval) :
  keys_ok options -> known_option a = true -> keys_ok (<[a := v]> options).
Proof.
  intros Hok Ha k. rewrite dict_has_insert, <- (Hok k).
  destruct (String.eqb_spec a k) as [->|Hne]; [| reflexivity].
  simpl. rewrite (Hok k). symmetry. exact Ha.
Qed.











Example unknown_option_message :
  fst (run (dunder_main lab ["mikrotik_command.py"; "--hostname=router";
                             "--foo=bar"] ∅))
  = Stop (SysExit (ExitMessage "Unknown option: --foo")).
Proof. reflexivity. Qed.

Example hostname_required_message :
  fst (run (dunder_main lab ["mikrotik_command.py";
                             "--command=/system reboot"] ∅))
  = Stop (SysExit
            (ExitMessage
               "Hostname is required, specify with --hostname=<hostname>")).
Proof. reflexivity. Qed.

(** ** The two invocation surfaces *)





(** * Further properties of the code *)

(** ** Snapshots and their lines *)

Lemma append_nil_r (s : string) : s +:+ "" = s.
Proof. induction s as [|c s IH]; simpl; congruence. Qed.


(** The lines [splitlines(True)] gives, put together again, are the
    text. *)
Lemma splitlines_from_cons (keepends : bool) (cur : string) (c : ascii)
    (r : string) :
  splitlines_from keepends cur (String c r) =
  if Ascii.eqb c LF then
    (cur +:+ (if keepends then str1 LF else "")) ::
    splitlines_from keepends "" r
  else if Ascii.eqb c CR then
    match r with
    | String c' r' =>
        if Ascii.eqb c' LF then
          (cur +:+ (if keepends then String CR (str1 LF) else "")) ::
          splitlines_from keepends "" r'
        else
          (cur +:+ (if keepends then str1 CR else "")) ::
          splitlines_from keepends "" r
    | EmptyString =>
        (cur +:+ (if keepends then str1 CR else "")) ::
        splitlines_from keepends "" r
    end
  else splitlines_from keepends (cur +:+ str1 c) r.
Proof. reflexivity. Qed.






Lemma diff_false_iff_tails (before after : string) :
  diff before after true = false <->
  tail (splitlines true before) = tail (splitlines true after).
Proof.
  unfold diff.
  set (b := tail (splitlines true before)). set (a := tail (splitlines true after)).
  destruct (Nat.eqb_spec (length b) (length a)) as [Hlen|Hlen].
  - destruct (for_else (zip b a)) eqn:E.
    + split; [intros _ | reflexivity].
      apply list_eq_same_length with (length a); auto.
      intros i x y _ Hx Hy. exact (proj1 (for_else_true_iff b a) E i x y Hx Hy).
    + split; [discriminate |]. intros Hab.
      apply for_else_false_iff in E as (i & x & y & Hx & Hy & Hne).
      rewrite Hab in Hx. congruence.
  - split; [discriminate |]. intros Hab. rewrite Hab in Hlen. contradiction.
Qed.



Lemma for_else_swap (b a : list string) :
  for_else (zip b a) = for_else (zip a b).
Proof.
  revert a. induction b as [|x b IH]; intros [|y a]; simpl; try reflexivity.
  rewrite (IH a). destruct (String.eqb_spec y x) as [->|Hne].
  - rewrite String.eqb_refl. reflexivity.
  - apply not_eq_sym in Hne. apply String.eqb_neq in Hne. rewrite Hne.
    reflexivity.
Qed.

(** X2.  The comparison of lines 324-331 does not depend on which dump
    is taken as the earlier one. *)
Theorem diff_symmetric (before after : string) (changed : bool) :
  diff before after changed = diff after before changed.
Proof.
  unfold diff. rewrite for_else_swap, (Nat.eqb_sym (length _) (length _)).
  reflexivity.
Qed.

(** X3.  When neither dump has more than one line, nothing is left to
    compare after the first lines are dropped, and [changed] ends false
    whatever the two lines are.  Lines 324-331. *)
Theorem diff_blind_to_single_lines (before after : string) :
  (length (splitlines true before) <= 1)%nat ->
  (length (splitlines true after) <= 1)%nat ->
  diff before after true = false.
Proof.
  intros Hb Ha. apply diff_false_iff_tails.
  destruct (splitlines true before) as [|x [|? ?]]; simpl in Hb; try lia;
    destruct (splitlines true after) as [|y [|? ?]]; simpl in Ha; try lia;
    reflexivity.
Qed.

Lemma diff_blind_to_single_lines_witness :
  diff "" "/ip service set telnet disabled=yes" true = false.
Proof.
  apply diff_blind_to_single_lines; vm_compute; lia.
Defined.

(** ** Running one command *)

Lemma rstrip_idempotent (s : string) : rstrip (rstrip s) = rstrip s.
Proof.
  induction s as [|c s IH]; [reflexivity |].
  simpl. destruct (is_empty (rstrip s) && isspace c) eqn:E; [reflexivity |].
  simpl. rewrite IH, E. reflexivity.
Qed.

Lemma sshcmd_accepted w sm module dev timeout command response tr :
  ssh_exec w tr command = Returns response ->
  has_error_mark response = false ->
  sshcmd w sm module dev timeout command tr
  = (Val (rstrip response), tr ++ [EvExec command timeout]).
Proof.
  intros H Hm. rewrite (sshcmd_returned _ _ _ _ _ _ _ _ H), Hm. reflexivity.
Qed.

(** X4.  When [exec_command] raises, [sshcmd] ends the task with the
    text of the exception: in standalone mode through [sys.exit], the
    device handle left open; in pipeline mode through [fail_json], after
    closing the handle.  Lines 182-188. *)
Theorem sshcmd_transport_error w sm module timeout command e tr :
  ssh_exec w tr command = Raises e ->
  (sm = false -> is_Some module) ->
  sshcmd w sm module (Some sshclient) timeout command tr
  = if sm
    then (Stop (SysExit (ExitMessage ("SSH command error: " +:+ e))),
          tr ++ [EvExec command timeout])
    else (Stop (FailJson [("msg", e);
                          ("description", "SSH error while executing command")]),
          tr ++ [EvExec command timeout; EvClose]).
Proof.
  intros H Hm. unfold sshcmd, try_except. unfold bind at 1. unfold bind at 1.
  unfold call. rewrite H. simpl.
  unfold bind, safe_fail, sys_exit, emit, halt, ret, raise.
  destruct sm; simpl; [reflexivity |].
  destruct (Hm eq_refl) as [params ->]. simpl. rewrite <- app_assoc. reflexivity.
Qed.

Lemma sshcmd_transport_error_witness :
  sshcmd drop_world false (Some ∅) (Some sshclient) cmd_timeout
    (VStr "/system reboot") []
  = (Stop (FailJson [("msg", "Timeout opening channel.");
                     ("description", "SSH error while executing command")]),
     [EvExec (VStr "/system reboot") 30; EvClose]).
Proof.
  apply (sshcmd_transport_error drop_world false (Some ∅) cmd_timeout
           (VStr "/system reboot") "Timeout opening channel." []).
  - reflexivity.
  - intros _. exists ∅. reflexivity.
Defined.

Lemma sshcmd_returns_inv w sm module dev timeout command v tr tr' :
  sshcmd w sm module dev timeout command tr = (Val v, tr') ->
  tr' = tr ++ [EvExec command timeout]
  /\ (exists response, ssh_exec w tr command = Returns response
                       /\ v = rstrip response)
  /\ rstrip v = v
  /\ has_error_mark v = false.
Proof.
  intros H.
  destruct (ssh_exec w tr command) as [e|response] eqn:E.
  - exfalso. revert H. unfold sshcmd, try_except. unfold bind at 1.
    unfold bind at 1. unfold call. rewrite E. simpl.
    unfold bind, safe_fail, sys_exit, emit, halt, ret, raise.
    destruct sm, dev, module; discriminate.
  - rewrite (sshcmd_returned _ _ _ _ _ _ _ _ E) in H.
    destruct (has_error_mark response) eqn:Hm.
    + exfalso. revert H.
      unfold bind, safe_fail, sys_exit, emit, halt, ret, raise.
      destruct sm, dev, module; discriminate.
    + injection H as <- <-. split; [reflexivity |].
      split; [exists response; auto |]. split; [apply rstrip_idempotent |].
      destruct (has_error_mark (rstrip response)) eqn:Hr; [| reflexivity].
      apply has_error_mark_iff in Hr.
      assert (Hc : has_error_mark response = true).
      { apply has_error_mark_iff.
        destruct Hr as [Hr|[Hr|Hr]]; apply contains_rstrip in Hr; tauto. }
      congruence.
Qed.

(** X5.  Whenever [sshcmd] returns a string, it has sent exactly the one
    command and nothing else, the string is the device's answer without
    its trailing white space, it has no trailing white space left, and it
    carries none of the three error marks.  Lines 180-193. *)
Theorem sshcmd_value_is_clean w sm module dev timeout command v tr tr' :
  sshcmd w sm module dev timeout command tr = (Val v, tr') ->
  tr' = tr ++ [EvExec command timeout]
  /\ (exists response, ssh_exec w tr command = Returns response
                       /\ v = rstrip response)
  /\ rstrip v = v
  /\ has_error_mark v = false.
Proof. apply sshcmd_returns_inv. Qed.

Lemma sshcmd_value_is_clean_witness :
  sshcmd padded_world true None (Some sshclient) cmd_timeout
    (VStr "/system reboot") []
  = (Val "done.", [EvExec (VStr "/system reboot") 30])
  /\ rstrip "done." = "done."
  /\ has_error_mark "done." = false.
Proof.
  match goal with |- ?A /\ _ => assert (E : A) by reflexivity end.
  split; [exact E |].
  destruct (sshcmd_value_is_clean _ _ _ _ _ _ _ _ _ E) as (_ & _ & H3 & H4).
  split; [exact H3 | exact H4].
Defined.

(** ** Before the session *)

Lemma params_lookup (task : gmap string pyval) (k : string) :
  (task ∪ argument_spec) !! k
  = match task !! k with
    | Some v => Some v
    | None => argument_spec !! k
    end.
Proof.
  rewrite lookup_union. destruct (task !! k), (argument_spec !! k); reflexivity.
Qed.

(** X6.  When the host name does not resolve, the task ends there with
    the resolver's message: no event at all is recorded, so no connection
    is attempted and there is no handle to close.  Lines 255-261. *)
Theorem resolution_failure_ends_before_connecting w sm rq changed h e tr :
  rq_rosdev rq !! "hostname" = Some (VStr h) ->
  gethostbyname w h = Raises e ->
  (sm = false -> is_Some (rq_module rq)) ->
  main_body w sm rq changed tr
  = (Stop (if sm
           then SysExit (ExitMessage ("Hostname error: " +:+ e))
           else FailJson [("msg", e);
                          ("description",
                           "error getting device address from hostname")]),
     tr).
Proof.
  intros Hh He Hm. unfold main_body, resolve, getitem. unfold bind at 1.
  unfold bind at 1. rewrite Hh. unfold ret at 1. rewrite He.
  unfold bind, safe_fail, sys_exit, emit, halt, ret, raise.
  destruct sm; [reflexivity |].
  destruct (Hm eq_refl) as [params ->]. reflexivity.
Qed.

Lemma resolution_failure_ends_before_connecting_witness :
  main_body no_dns_world false (print_request true) true []
  = (Stop (FailJson [("msg", "[Errno -2] Name or service not known");
                     ("description",
                      "error getting device address from hostname")]),
     []).
Proof.
  apply (resolution_failure_ends_before_connecting no_dns_world false
           (print_request true) true "router").
  - reflexivity.
  - reflexivity.
  - intros _. exists ∅. reflexivity.
Defined.

(** X7.  With neither a command nor a script to upload (each unset or
    empty), [main] ends before anything else happens: in pipeline mode
    with [fail_json] 'command required' and no event; in standalone mode
    with the usage text and [sys.exit].  Lines 223-225 and 240-242. *)
Theorem command_or_script_required :
  (forall w SHELLOPTS task tr,
     is_Some (task !! "hostname") ->
     paramiko_import w = Returns tt ->
     (forall v, task !! "command" = Some v -> truthy v = false) ->
     (forall v, task !! "upload_script" = Some v -> truthy v = false) ->
     main w false SHELLOPTS task tr
     = (Stop (FailJson [("msg", "command required");
                        ("description",
                         "command or upload_script is required")]),
        tr))
  /\
  (forall w options task command upload_script tr,
     paramiko_import w = Returns tt ->
     options !! "command" = Some command ->
     options !! "upload_script" = Some upload_script ->
     truthy command = false -> truthy upload_script = false ->
     main w true (Some options) task tr
     = (Stop (SysExit
                (ExitMessage
                   "command required, specify with --command=<cmd> or --upload_script=<file>")),
        tr ++ [EvPrint SHELL_USAGE])).
Proof.
  split.
  - intros w SHELLOPTS task tr [h Hh] Hp Hc Hs.
    unfold main, pipeline_request, AnsibleModule, dict_has. rewrite Hh, Hp.
    assert (Ec : exists c, (task ∪ argument_spec) !! "command" = Some c
                           /\ truthy c = false).
    { rewrite params_lookup. destruct (task !! "command") as [c|] eqn:E.
      - exists c. auto.
      - exists VNone. split; reflexivity. }
    assert (Es : exists c, (task ∪ argument_spec) !! "upload_script" = Some c
                           /\ truthy c = false).
    { rewrite params_lookup. destruct (task !! "upload_script") as [c|] eqn:E.
      - exists c. auto.
      - exists VNone. split; reflexivity. }
    destruct Ec as (c & Ec & Tc). destruct Es as (s & Es & Ts).
    unfold getitem, bind, ret, safe_fail, halt. cbv beta iota.
    rewrite Ec. cbv beta iota. rewrite Es. cbv beta iota.
    rewrite Tc, Ts. reflexivity.
  - intros w options task command upload_script tr Hp Hc Hs Tc Ts.
    unfold main, shell_request, getitem. rewrite Hp.
    unfold bind, ret, sys_exit, emit, halt. cbv beta iota.
    rewrite Hc. cbv beta iota. rewrite Hs. cbv beta iota.
    rewrite Tc, Ts. reflexivity.
Qed.

Lemma command_or_script_required_witness :
  main lab false None (list_to_map [("hostname", VStr "router");
                                    ("command", VStr "")]) []
  = (Stop (FailJson [("msg", "command required");
                     ("description", "command or upload_script is required")]),
     [])
  /\
  main lab true (Some (<["hostname" := VStr "router"]> SHELLDEFS)) ∅ []
  = (Stop (SysExit
             (ExitMessage
                "command required, specify with --command=<cmd> or --upload_script=<file>")),
     [EvPrint SHELL_USAGE]).
Proof.
  destruct command_or_script_required as [Hp Hs]. split.
  - apply Hp.
    + exists (VStr "router"). reflexivity.
    + reflexivity.
    + intros v H. vm_compute in H. injection H as <-. reflexivity.
    + intros v H. vm_compute in H. discriminate H.
  - apply (Hs lab _ ∅ VNone VNone []); reflexivity.
Defined.

(** X8.  When [import paramiko] failed, [main] ends at once with the
    import error and no event: through [fail_json] in pipeline mode,
    through [sys.exit] in standalone mode, there before the options are
    even read.  Lines 220-222 and 238-239. *)
Theorem missing_ssh_library_ends_at_once :
  (forall w SHELLOPTS task e tr,
     is_Some (task !! "hostname") ->
     paramiko_import w = Raises e ->
     main w false SHELLOPTS task tr
     = (Stop (FailJson [("msg", "There was a problem loading module: ");
                        ("error", e)]),
        tr))
  /\
  (forall w SHELLOPTS task e tr,
     paramiko_import w = Raises e ->
     main w true SHELLOPTS task tr
     = (Stop (SysExit (ExitMessage ("SSH client error: " +:+ e))), tr)).
Proof.
  split.
  - intros w SHELLOPTS task e tr [h Hh] Hp.
    unfold main, pipeline_request, AnsibleModule, dict_has. rewrite Hh, Hp.
    reflexivity.
  - intros w SHELLOPTS task e tr Hp.
    unfold main, shell_request. rewrite Hp. reflexivity.
Qed.

Lemma missing_ssh_library_ends_at_once_witness :
  main no_paramiko_world false None reboot_task []
  = (Stop (FailJson [("msg", "There was a problem loading module: ");
                     ("error", "No module named paramiko")]), [])
  /\
  main no_paramiko_world true None ∅ []
  = (Stop (SysExit (ExitMessage "SSH client error: No module named paramiko")),
     []).
Proof.
  destruct missing_ssh_library_ends_at_once as [Hp Hs]. split.
  - apply Hp; [exists (VStr "router") |]; reflexivity.
  - apply Hs. reflexivity.
Defined.

(** ** More on standalone argument parsing *)

Lemma split_eq1_none (s : string) : str_in "=" s = false -> split_eq1 s = None.
Proof.
  induction s as [|c s IH]; [reflexivity |].
  rewrite str_in_cons. intros H. apply orb_false_elim in H as [Hp Hk].
  simpl. destruct (Ascii.eqb_spec c "="%char) as [->|Hne].
  - destruct s; discriminate Hp.
  - rewrite (IH Hk). reflexivity.
Qed.

(** X9.  An option given without a value, [--name] with a known name,
    is stored as [True].  Lines 134-146. *)
Theorem bare_option_is_true options name tr :
  ~ contains "=" name ->
  dict_has options name || String.eqb name "hostname" = true ->
  parse_opt options ("--" +:+ name) tr
  = (Val (<[name := VBool true]> options), tr).
Proof.
  intros Hname Hknown.
  assert (Hsplit : split_eq1 ("--" +:+ name) = None).
  { apply split_eq1_none. apply str_in_false in Hname.
    change ("--" +:+ name) with (String "-" (String "-" name)).
    rewrite !str_in_cons, Hname. reflexivity. }
  assert (Hdash : startswith ("--" +:+ name) "--" = true).
  { apply prefix_true_iff. eexists. reflexivity. }
  rewrite parse_opt_eq, Hdash. unfold opt_name, opt_value. rewrite Hsplit.
  simpl. rewrite Hknown. reflexivity.
Qed.

Lemma bare_option_is_true_witness :
  parse_opt (<["test_change" := VBool false]> SHELLDEFS) "--test_change" []
  = (Val (<["test_change" := VBool true]>
            (<["test_change" := VBool false]> SHELLDEFS)), []).
Proof.
  apply (bare_option_is_true _ "test_change" []).
  - apply str_in_false. reflexivity.
  - reflexivity.
Defined.

(** X10.  Arguments that do not start with two dashes, the program name
    among them, play no part: the loop of [parse_opts] does on the whole
    command line what it does on the dashed arguments alone.
    Lines 132-149. *)
Theorem undashed_arguments_are_ignored (cmdline : list string) :
  forall options tr,
    parse_loop options cmdline tr
    = parse_loop options (List.filter dashed cmdline) tr.
Proof.
  induction cmdline as [|opt rest IH]; intros options tr; [reflexivity |].
  simpl. unfold dashed at 1. destruct (startswith opt "--") eqn:E.
  - simpl. unfold bind. destruct (parse_opt options opt tr) as [[o|s] tr1];
      [apply IH | reflexivity].
  - unfold bind. rewrite parse_opt_eq, E. apply IH.
Qed.

Lemma coerce_kind (val : string) : bool_or_str (coerce val).
Proof.
  unfold coerce, bool_or_str.
  repeat match goal with
         | |- context [if ?b then _ else _] => destruct b
         end; eauto.
Qed.

Lemma opt_value_kind (opt : string) : bool_or_str (opt_value opt).
Proof.
  unfold opt_value. destruct (split_eq1 opt) as [[a v]|];
    [apply coerce_kind | left; eauto].
Qed.

Lemma values_ok_SHELLDEFS : values_ok SHELLDEFS.
Proof. intros k v H. left. exact H. Qed.

Lemma values_ok_insert options a v :
  values_ok options -> bool_or_str v -> values_ok (<[a := v]> options).
Proof.
  intros Hok Hv k x. rewrite lookup_insert.
  destruct (decide (a = k)); [intros [= <-]; right; exact Hv | apply Hok].
Qed.

Lemma parse_loop_returns (cmdline : list string) :
  forall options tr o tr',
    parse_loop options cmdline tr = (Val o, tr') ->
    keys_ok options -> values_ok options ->
    tr' = tr /\ keys_ok o /\ values_ok o.
Proof.
  induction cmdline as [|opt rest IH]; intros options tr o tr' H Hk Hv.
  - injection H as <- <-. auto.
  - simpl in H. unfold bind in H. rewrite parse_opt_eq in H.
    destruct (startswith opt "--"); [| apply (IH _ _ _ _ H); assumption].
    rewrite (Hk (opt_name opt)) in H.
    destruct (known_option (opt_name opt)) eqn:Hknown; [| discriminate H].
    apply (IH _ _ _ _ H).
    + apply keys_ok_insert; assumption.
    + apply values_ok_insert; [assumption | apply opt_value_kind].
Qed.

Lemma parse_opts_returns (cmdline : list string) options tr tr' :
  parse_opts cmdline tr = (Val options, tr') ->
  tr' = tr
  /\ (forall k, dict_has options k = known_option k)
  /\ values_ok options.
Proof.
  unfold parse_opts. unfold bind at 1.
  destruct (parse_loop SHELLDEFS cmdline tr) as [[o|s] tr1] eqn:E;
    [| discriminate].
  destruct (parse_loop_returns _ _ _ _ _ E keys_ok_SHELLDEFS values_ok_SHELLDEFS)
    as (-> & Hk & Hv).
  destruct (dict_has o "hostname") eqn:Hh; simpl; [| discriminate].
  intros [= <- <-]. split; [reflexivity |]. split; [| exact Hv].
  intros k. rewrite <- (Hk k).
  destruct (String.eqb_spec k "hostname") as [->|Hne];
    [rewrite Hh; reflexivity | rewrite orb_false_r; reflexivity].
Qed.



(** X12.  After [parse_opts] has returned, the standalone entry path of
    [main] finds every key it reads: it never ends with an exception.
    Lines 238-253 after 129-153. *)
Theorem request_after_parse_has_every_key w cmdline options tr tr' :
  parse_opts cmdline tr = (Val options, tr') ->
  forall e, fst (shell_request w (Some options) tr') <> Stop (Uncaught e).
Proof.
  intros H e. destruct (parse_opts_returns _ _ _ _ H) as (_ & Hk & _).
  assert (Hget : forall k, known_option k = true ->
                           exists v, options !! k = Some v).
  { intros k Hknown. specialize (Hk k). rewrite Hknown in Hk.
    unfold dict_has in Hk. destruct (options !! k) as [v|]; [eauto | discriminate]. }
  destruct (Hget "command" eq_refl) as [c Hc].
  destruct (Hget "upload_script" eq_refl) as [us Hus].
  destruct (Hget "hostname" eq_refl) as [h Hh].
  destruct (Hget "username" eq_refl) as [u Hu].
  destruct (Hget "password" eq_refl) as [pw Hpw].
  destruct (Hget "port" eq_refl) as [po Hpo].
  destruct (Hget "timeout" eq_refl) as [ti Hti].
  destruct (Hget "key_filename" eq_refl) as [kf Hkf].
  destruct (Hget "test_change" eq_refl) as [tc Htc].
  destruct (Hget "upload_file" eq_refl) as [uf Huf].
  unfold shell_request, getitem, bind, ret, sys_exit, emit, halt, raise.
  destruct (paramiko_import w); [discriminate |]. cbv beta iota.
  rewrite Hc. cbv beta iota. rewrite Hus. cbv beta iota.
  destruct (negb (truthy c) && negb (truthy us)); [discriminate |].
  cbv beta iota. rewrite Hh. cbv beta iota. rewrite Hu. cbv beta iota.
  rewrite Hpw. cbv beta iota. rewrite Hpo. cbv beta iota.
  rewrite Hti. cbv beta iota. rewrite Hkf. cbv beta iota.
  rewrite Htc. cbv beta iota. rewrite Huf. discriminate.
Qed.

Lemma request_after_parse_has_every_key_witness :
  fst (shell_request lab
         (Some (<["command" := VStr "/system reboot"]>
                  (<["hostname" := VStr "router"]> SHELLDEFS))) [])
  <> Stop (Uncaught "KeyError").
Proof.
  apply (request_after_parse_has_every_key lab reboot_argv _ [] []).
  reflexivity.
Defined.

(** ** Escaping the lines of a script *)

Lemma replace1_app (old : ascii) (new a b : string) :
  replace1 old new (a +:+ b) = replace1 old new a +:+ replace1 old new b.
Proof.
  induction a as [|c a IH]; [reflexivity |].
  simpl. rewrite IH, append_assoc. reflexivity.
Qed.

Ltac each_char c :=
  destruct c as [[] [] [] [] [] [] [] []]; reflexivity.

Lemma three_passes_char (c : ascii) :
  replace1 "$"%char "\$"
    (replace1 DQ ("\" +:+ str1 DQ) (replace1 BSL "\\" (str1 c)))
  = escape_char c.
Proof. each_char c. Qed.

Lemma three_passes (s : string) :
  replace1 "$"%char "\$" (replace1 DQ ("\" +:+ str1 DQ) (replace1 BSL "\\" s))
  = escape s.
Proof.
  induction s as [|c s IH]; [reflexivity |].
  change (String c s) with (str1 c +:+ s).
  rewrite !replace1_app, IH, three_passes_char. reflexivity.
Qed.

Lemma escaped_escape_char (c : ascii) (t : string) :
  escaped (escape_char c +:+ t) = escaped t.
Proof. each_char c. Qed.

Lemma unescape_escape_char (c : ascii) (t : string) :
  unescape (escape_char c +:+ t) = String c (unescape t).
Proof. each_char c. Qed.

Lemma escaped_escape (s : string) :
  forall t, escaped t = true -> escaped (escape s +:+ t) = true.
Proof.
  induction s as [|c s IH]; intros t Ht; [exact Ht |].
  cbn [escape]. rewrite append_assoc, escaped_escape_char. apply IH, Ht.
Qed.

Lemma unescape_escape (s : string) :
  forall t, unescape (escape s +:+ t) = s +:+ unescape t.
Proof.
  induction s as [|c s IH]; intros t; [reflexivity |].
  cbn [escape]. rewrite append_assoc, unescape_escape_char, IH. reflexivity.
Qed.

Lemma string_length_app (a b : string) :
  String.length (a +:+ b) = (String.length a + String.length b)%nat.
Proof. induction a as [|c a IH]; simpl; [reflexivity | rewrite IH; reflexivity]. Qed.

Lemma append_cancel_r (x y t : string) : x +:+ t = y +:+ t -> x = y.
Proof.
  intros E.
  assert (L : String.length x = String.length y).
  { apply (f_equal String.length) in E. rewrite !string_length_app in E. lia. }
  revert y E L. induction x as [|c x IH]; intros [|d y] E L;
    simpl in L; try discriminate; [reflexivity |].
  simpl in E. injection E as -> E. f_equal. apply IH; [exact E | lia].
Qed.

Lemma script_line_eq (line : string) :
  script_line line = escape (rstrip line) +:+ "\r\n".
Proof. unfold script_line. rewrite three_passes. reflexivity. Qed.

(** X13.  What lines 302-307 add to the command for one line of the
    script is an escaped text followed by the four characters
    backslash, r, backslash, n: outside an escape it has no double quote
    and no dollar, every backslash in it is followed by a backslash, a
    double quote or a dollar, and read back it is the line without its
    trailing white space. *)
Theorem script_line_is_escaped (line : string) :
  exists body,
    script_line line = body +:+ "\r\n"
    /\ escaped body = true
    /\ unescape body = rstrip line.
Proof.
  exists (escape (rstrip line)). split; [apply script_line_eq |]. split.
  - rewrite <- (append_nil_r (escape (rstrip line))).
    apply escaped_escape. reflexivity.
  - rewrite <- (append_nil_r (escape (rstrip line))), unescape_escape.
    apply append_nil_r.
Qed.

(** X14.  Two script lines that are sent as the same text are the same
    line up to trailing white space: the escaping loses nothing else.
    Lines 302-307. *)
Theorem script_line_injective (a b : string) :
  script_line a = script_line b -> rstrip a = rstrip b.
Proof.
  intros H. rewrite !script_line_eq in H.
  apply (f_equal unescape) in H. rewrite !unescape_escape in H.
  simpl in H.
  exact (append_cancel_r _ _ _ H).
Qed.

Lemma script_line_injective_witness :
  rstrip "/ip service set telnet disabled=yes " =
  rstrip "/ip service set telnet disabled=yes".
Proof.
  apply script_line_injective. reflexivity.
Defined.

(** ** The script branch and the upload *)

Lemma fold_left_script (script : list string) :
  forall cmd,
    fold_left (fun cmd line => cmd +:+ script_line line) script cmd
    = cmd +:+ join (map script_line script).
Proof.
  induction script as [|l script IH]; intros cmd; simpl.
  - induction cmd as [|c cmd IHc]; simpl; congruence.
  - rewrite IH, append_assoc. reflexivity.
Qed.

(** X15.  When the script file can be read and the device accepts each
    command, the script branch sends exactly three commands in this
    order: remove the script of that base name, add it with the escaped
    lines as its source, run it; the response is the three answers, each
    without its trailing white space, glued together with nothing in
    between.  Lines 285-311. *)
Theorem run_script_sends_three_commands w sm module dev f script r1 r2 r3 tr :
  let name := basename f in
  let c1 := VStr (script_remove name) in
  let c2 := VStr (script_add name script) in
  let c3 := VStr (script_run name) in
  readlines w f = Returns script ->
  ssh_exec w tr c1 = Returns r1 -> has_error_mark r1 = false ->
  ssh_exec w (tr ++ [EvExec c1 cmd_timeout]) c2 = Returns r2 ->
  has_error_mark r2 = false ->
  ssh_exec w (tr ++ [EvExec c1 cmd_timeout; EvExec c2 cmd_timeout]) c3
  = Returns r3 ->
  has_error_mark r3 = false ->
  run_script w sm module dev (VStr f) tr
  = (Val (rstrip r1 +:+ rstrip r2 +:+ rstrip r3),
     tr ++ [EvExec c1 cmd_timeout; EvExec c2 cmd_timeout;
            EvExec c3 cmd_timeout]).
Proof.
  intros name c1 c2 c3 Hread H1 M1 H2 M2 H3 M3.
  pose proof (sshcmd_accepted w sm module dev cmd_timeout c1 r1 tr H1 M1) as S1.
  pose proof (sshcmd_accepted w sm module dev cmd_timeout c2 r2 _ H2 M2) as S2.
  pose proof (sshcmd_accepted w sm module dev cmd_timeout c3 r3 _ H3 M3) as S3.
  unfold run_script, try_except, os_path_basename, lift_raised.
  cbn [py_str]. rewrite Hread.
  unfold bind, ret. cbv beta iota. fold name.
  fold (script_remove name). fold c1. rewrite S1. cbv beta iota.
  rewrite fold_left_script.
  replace (("/system script add name=" +:+ str1 DQ +:+ name +:+ str1 DQ
            +:+ " source=" +:+ str1 DQ) +:+ join (map script_line script))
    with ("/system script add name=" +:+ str1 DQ +:+ name +:+ str1 DQ
          +:+ " source=" +:+ str1 DQ +:+ join (map script_line script))
    by (simpl; rewrite !append_assoc; reflexivity).
  replace (("/system script add name=" +:+ str1 DQ +:+ name +:+ str1 DQ
            +:+ " source=" +:+ str1 DQ +:+ join (map script_line script))
           +:+ str1 DQ)
    with (script_add name script)
    by (unfold script_add; simpl; rewrite !append_assoc; reflexivity).
  fold c2. rewrite S2. cbv beta iota.
  fold (script_run name). fold c3.
  replace ((tr ++ [EvExec c1 cmd_timeout]) ++ [EvExec c2 cmd_timeout])
    with (tr ++ [EvExec c1 cmd_timeout; EvExec c2 cmd_timeout])
    by (rewrite <- app_assoc; reflexivity).
  rewrite S3. rewrite <- app_assoc. simpl. rewrite append_assoc. reflexivity.
Qed.

Lemma run_script_sends_three_commands_witness :
  run_script import_world false (Some ∅) (Some sshclient)
    (VStr "/home/me/setup.rsc") []
  = (Val "",
     [EvExec (VStr (script_remove "setup.rsc")) 30;
      EvExec (VStr (script_add "setup.rsc"
                      ["/ip service set telnet disabled=yes" +:+ str1 LF])) 30;
      EvExec (VStr (script_run "setup.rsc")) 30]).
Proof.
  apply (run_script_sends_three_commands import_world false (Some ∅)
           (Some sshclient) "/home/me/setup.rsc"
           ["/ip service set telnet disabled=yes" +:+ str1 LF] "" "" "" []);
    reflexivity.
Defined.

(** X16.  When the script file cannot be read, the task ends with the
    text of the exception after closing the device handle, in both modes,
    and no command is sent.  Lines 287-296. *)
Theorem unreadable_script_ends_with_close w sm module f e tr :
  readlines w f = Raises e ->
  (sm = false -> is_Some module) ->
  run_script w sm module (Some sshclient) (VStr f) tr
  = (Stop (if sm
           then SysExit (ExitMessage ("Script file error: " +:+ e))
           else FailJson [("msg", e);
                          ("description", "error opening script file")]),
     tr ++ [EvClose]).
Proof.
  intros Hread Hm. unfold run_script, try_except, lift_raised.
  cbn [py_str]. rewrite Hread.
  unfold bind, raise, halt, safe_fail, sys_exit, emit, ret. cbv beta iota.
  destruct sm; [reflexivity |].
  destruct (Hm eq_refl) as [params ->]. reflexivity.
Qed.

Lemma unreadable_script_ends_with_close_witness :
  run_script unreadable_script_world true None (Some sshclient)
    (VStr "/home/me/setup.rsc") []
  = (Stop (SysExit
             (ExitMessage "Script file error: [Errno 13] Permission denied")),
     [EvClose]).
Proof.
  apply (unreadable_script_ends_with_close unreadable_script_world true None
           "/home/me/setup.rsc" "[Errno 13] Permission denied" []).
  - reflexivity.
  - discriminate.
Defined.



(** X18.  When the transfer itself raises, nothing takes the exception:
    the task ends with it uncaught, with the SFTP session and the device
    handle both left open.  Lines 270-275. *)
Theorem failed_transfer_leaves_everything_open w sm module dev f e tr :
  let uploaded := basename f in
  f <> "" ->
  isfile w f = true ->
  sftp_put w (tr ++ [EvSftpOpen]) f uploaded = Raises e ->
  upload w sm module dev (VStr f) tr
  = (Stop (Uncaught e), tr ++ [EvSftpOpen; EvSftpPut f uploaded]).
Proof.
  intros uploaded Hf Hfile Hput.
  unfold upload, os_path_isfile, os_path_basename, call, emit, lift_raised.
  rewrite (truthy_nonempty f Hf).
  unfold bind, ret. cbv beta iota. rewrite Hfile. cbv beta iota.
  cbn [py_str]. fold uploaded. rewrite Hput. cbv beta iota.
  unfold raise, halt. rewrite <- app_assoc. reflexivity.
Qed.

Lemma failed_transfer_leaves_everything_open_witness :
  upload full_disk_world false (Some ∅) (Some sshclient)
    (VStr "/home/me/.ssh/id_rsa.pub") []
  = (Stop (Uncaught "Failure"),
     [EvSftpOpen; EvSftpPut "/home/me/.ssh/id_rsa.pub" "id_rsa.pub"]).
Proof.
  apply (failed_transfer_leaves_everything_open full_disk_world false (Some ∅)
           (Some sshclient) "/home/me/.ssh/id_rsa.pub" "Failure" []);
    first [reflexivity | discriminate].
Defined.

(** ** The lines of the report *)

Lemma no_linebreak_app (a b : string) :
  no_linebreak (a +:+ b) = no_linebreak a && no_linebreak b.
Proof.
  induction a as [|c a IH]; [reflexivity |].
  simpl. rewrite IH, !andb_assoc. reflexivity.
Qed.

Lemma splitlines_no_linebreak (s : string) :
  forall cur,
    no_linebreak cur = true ->
    Forall (fun l => no_linebreak l = true) (splitlines_from false cur s).
Proof.
  induction s as [|c s IH]; intros cur Hcur.
  - simpl. destruct (is_empty cur); [constructor |].
    constructor; [exact Hcur | constructor].
  - rewrite splitlines_from_cons.
    assert (Hline : no_linebreak (cur +:+ "") = true)
      by (rewrite append_nil_r; exact Hcur).
    destruct (Ascii.eqb c LF) eqn:Hlf.
    + constructor; [exact Hline | apply IH; reflexivity].
    + destruct (Ascii.eqb c CR) eqn:Hcr.
      * destruct s as [|c' s'].
        -- constructor; [exact Hline | apply IH; reflexivity].
        -- destruct (Ascii.eqb c' LF) eqn:Hlf'.
           ++ constructor; [exact Hline |].
              specialize (IH "" eq_refl). rewrite splitlines_from_cons, Hlf' in IH.
              inversion IH; assumption.
           ++ constructor; [exact Hline | apply IH; reflexivity].
      * apply IH. rewrite no_linebreak_app, Hcur. simpl. rewrite Hlf, Hcr.
        reflexivity.
Qed.

Lemma no_linebreak_rstrip (s : string) :
  no_linebreak s = true -> no_linebreak (rstrip s) = true.
Proof.
  induction s as [|c s IH]; [reflexivity |].
  simpl. intros H. apply andb_true_iff in H as [Hc Hs].
  destruct (is_empty (rstrip s) && isspace c); [reflexivity |].
  simpl. rewrite Hc, (IH Hs). reflexivity.
Qed.

Lemma no_linebreak_lstrip (s : string) :
  no_linebreak s = true -> no_linebreak (lstrip s) = true.
Proof.
  induction s as [|c s IH]; [reflexivity |].
  intros H. cbn [lstrip]. destruct (isspace c); [| exact H].
  simpl in H. apply andb_true_iff in H as [_ Hs]. exact (IH Hs).
Qed.

Lemma lstrip_idempotent (s : string) : lstrip (lstrip s) = lstrip s.
Proof.
  induction s as [|c s IH]; [reflexivity |].
  cbn [lstrip]. destruct (isspace c) eqn:E; [exact IH |].
  cbn [lstrip]. rewrite E. reflexivity.
Qed.

Lemma rstrip_lstrip_fixed (s : string) :
  rstrip s = s -> rstrip (lstrip s) = lstrip s.
Proof.
  induction s as [|c s IH]; [reflexivity |].
  intros H. cbn [lstrip]. destruct (isspace c) eqn:E; [| exact H].
  apply IH. simpl in H. rewrite E, andb_true_r in H.
  destruct (is_empty (rstrip s)); [discriminate | congruence].
Qed.

Lemma strip_idempotent (s : string) : strip (strip s) = strip s.
Proof.
  unfold strip.
  rewrite (rstrip_lstrip_fixed (rstrip s) (rstrip_idempotent s)).
  apply lstrip_idempotent.
Qed.

(** X19.  Every entry of [stdout_lines] comes from a non-empty line of
    the response, is that line without the white space around it, has no
    line break, and has no white space left around it.  Lines 338-341. *)
Theorem stdout_lines_are_trimmed (response x : string) :
  In x (stdout_lines_of (splitlines false response)) ->
  strip x = x /\ no_linebreak x = true
  /\ exists line, In line (splitlines false response) /\ line <> ""
                  /\ x = strip line.
Proof.
  pose proof (splitlines_no_linebreak response "" eq_refl) as Hall.
  unfold splitlines. induction Hall as [|l lines Hl Hall IH]; [intros [] |].
  cbn [stdout_lines_of]. destruct l as [|c l].
  - simpl. intros H. destruct (IH H) as (H1 & H2 & line & H3 & H4 & H5).
    split; [exact H1 |]. split; [exact H2 |]. exists line. simpl. auto.
  - cbn [is_empty negb]. intros [<- | H].
    + split; [apply strip_idempotent |].
      split; [apply no_linebreak_lstrip, no_linebreak_rstrip, Hl |].
      exists (String c l). split; [left; reflexivity |].
      split; [discriminate | reflexivity].
    + destruct (IH H) as (H1 & H2 & line & H3 & H4 & H5).
      split; [exact H1 |]. split; [exact H2 |]. exists line.
      split; [right; exact H3 | auto].
Qed.

Lemma stdout_lines_are_trimmed_witness :
  strip "0  name=ether1" = "0  name=ether1".
Proof.
  apply (stdout_lines_are_trimmed
           (" 0  name=ether1  " +:+ String CR (str1 LF) +:+ "   "
            +:+ str1 LF +:+ str1 LF +:+ " 1  name=ether2")
           "0  name=ether1").
  vm_compute. left. reflexivity.
Defined.

(** ** What a run never does *)

Lemma only_ret P R {A} (a : A) : spec (ret a) (only P R).
Proof. apply spec_ret. split; [reflexivity | exact I]. Qed.

Lemma only_halt P R {A} (s : stop) : R s = true -> spec (@halt A s) (only P R).
Proof. intros H. apply spec_halt. split; [reflexivity | exact H]. Qed.

Lemma only_emit P R (e : event) : P e = true -> spec (emit e) (only P R).
Proof.
  intros H. apply spec_emit. split; [simpl; rewrite H; reflexivity | exact I].
Qed.

Lemma only_call P R {A} (e : event) (oracle : list event -> A) :
  P e = true -> spec (call e oracle) (only P R).
Proof.
  intros H. apply spec_call. intros a.
  split; [simpl; rewrite H; reflexivity | exact I].
Qed.

Lemma only_call_logged P R {A} (e : A -> event) (oracle : list event -> A) :
  (forall a, P (e a) = true) -> spec (call_logged e oracle) (only P R).
Proof.
  intros H tr. exists [e (oracle tr)]. split; [reflexivity |].
  split; [simpl; rewrite H; reflexivity | exact I].
Qed.

Lemma only_bind P R {A B} (m : M A) (k : A -> M B) :
  spec m (only P R) -> (forall a, spec (k a) (only P R)) ->
  spec (bind m k) (only P R).
Proof.
  intros Hm Hk. eapply spec_bind; [exact Hm | exact Hk | |].
  - intros s1 a s2 r [H1 _] [H2 K2]. split; [| exact K2].
    rewrite forallb_app, H1, H2. reflexivity.
  - intros s1 s H. exact H.
Qed.

(** An exception that a handler takes does not end the task, so the body
    of a [try] need not satisfy [R] when it raises. *)
Lemma only_try_except P R {A} (body : M A) (handler : string -> M A) :
  spec body (only P (fun s => match s with Uncaught _ => true | _ => R s end)) ->
  (forall e, spec (handler e) (only P R)) ->
  spec (try_except body handler) (only P R).
Proof.
  intros Hb Hh. eapply spec_try_except; [exact Hb | exact Hh | |].
  - intros s1 e s2 r [H1 _] [H2 K2]. split; [| exact K2].
    rewrite forallb_app, H1, H2. reflexivity.
  - intros s1 r [H1 K1] Hne. split; [exact H1 |].
    destruct r as [a|[| | |e]]; try exact K1. exfalso. exact (Hne e eq_refl).
Qed.

Ltac only_step :=
  lazymatch goal with
  | |- spec (if true then ?x else _) ?Q => change (spec x Q)
  | |- spec (if false then _ else ?y) ?Q => change (spec y Q)
  | |- spec (if negb false then ?x else _) ?Q => change (spec x Q)
  | |- spec (if negb true then _ else ?y) ?Q => change (spec y Q)
  | |- spec (bind _ _) _ => apply only_bind; [| intros ?]
  | |- spec (try_except _ _) _ => apply only_try_except; [| intros ?]
  | |- spec (ret _) _ => apply only_ret
  | |- spec (halt _) _ => apply only_halt; reflexivity
  | |- spec (raise _) _ => apply only_halt; reflexivity
  | |- spec (sys_exit _) _ => apply only_halt; reflexivity
  | |- spec (emit _) _ => apply only_emit; reflexivity
  | |- spec (call _ _) _ => apply only_call; reflexivity
  | |- spec (call_logged _ _) _ =>
      apply only_call_logged; intros ?; reflexivity
  | |- spec (getitem _ _) _ => unfold getitem
  | |- spec (lift_raised _) _ => unfold lift_raised
  | |- spec (os_path_isfile _ _) _ => unfold os_path_isfile
  | |- spec (os_path_basename _) _ => unfold os_path_basename
  | |- spec (str_add _ _) _ => unfold str_add
  | |- spec (safe_fail _ _ _) _ => unfold safe_fail
  | |- spec (safe_exit _ _ _ _ _) _ => unfold safe_exit
  | |- spec (device_name _) _ => unfold device_name
  | |- spec (device_connect_call _ _ _ _) _ => unfold device_connect_call
  | |- spec (device_connect _ _ _ _ _) _ => unfold device_connect
  | |- spec (sshcmd _ _ _ _ _ _) _ => unfold sshcmd
  | |- spec (AnsibleModule _) _ => unfold AnsibleModule
  | |- spec (pipeline_request _ _) _ => unfold pipeline_request
  | |- spec (shell_request _ _) _ => unfold shell_request
  | |- spec (resolve _ _ _ _) _ => unfold resolve
  | |- spec (upload _ _ _ _ _) _ => unfold upload
  | |- spec (run_script _ _ _ _ _) _ => unfold run_script
  | |- spec (run_command _ _ _ _ _ _ _ _) _ => unfold run_command
  | |- spec (execute _ _ _ _ _ _ _ _ _) _ => unfold execute
  | |- spec (detect_change _ _ _ _ _ _ _) _ => unfold detect_change
  | |- spec (report _ _ _ _ _) _ => unfold report
  | |- spec (session _ _ _ _ _) _ => unfold session
  | |- spec (main_body _ _ _ _) _ => unfold main_body
  | |- spec (main _ _ _ _) _ => unfold main
  | |- spec (parse_opt _ _) _ => unfold parse_opt
  | |- spec (let _ := _ in _) _ => cbv zeta
  | |- spec (if ?b then _ else _) _ => destruct b eqn:?
  | |- spec (match ?x with _ => _ end) _ => destruct x eqn:?
  end.

Lemma pipeline_mode_never_prints w SHELLOPTS task tr :
  exists suf,
    snd (main w false SHELLOPTS task tr) = tr ++ suf
    /\ forallb not_output suf = true.
Proof.
  assert (H : spec (main w false SHELLOPTS task) (only not_output any_stop))
    by (repeat only_step).
  destruct (H tr) as [suf [E [Hs _]]]. exists suf. split; [exact E | exact Hs].
Qed.

Lemma dunder_main_pipeline w argv task :
  standalone w argv = false ->
  dunder_main w argv task = main w false None task.
Proof. unfold standalone, dunder_main. intros ->. reflexivity. Qed.

(** X20.  A pipeline-mode run writes nothing to the standard output:
    no [print] and no [sys.stdout.write] on any path.  Lines 200-344. *)
Theorem pipeline_run_never_prints w argv task :
  standalone w argv = false ->
  forallb not_output (snd (run (dunder_main w argv task))) = true.
Proof.
  intros H. rewrite (dunder_main_pipeline w argv task H). unfold run.
  destruct (pipeline_mode_never_prints w None task []) as [suf [E Hs]].
  rewrite E. exact Hs.
Qed.


Lemma pipeline_run_never_prints_witness :
  forallb not_output
    (snd (run (dunder_main stable_world ["mikrotik_command.py"] reboot_task)))
  = true.
Proof. apply pipeline_run_never_prints. reflexivity. Defined.

Lemma halts_bind {A B} (m : M A) (k : A -> M B) :
  (forall a, halts (k a)) -> halts (bind m k).
Proof.
  intros Hk tr. unfold bind. destruct (m tr) as [[a|s] tr1]; [apply Hk |].
  exists s. reflexivity.
Qed.

Lemma halts_report sm module dev response changed :
  halts (report sm module dev response changed).
Proof.
  intros tr. unfold report, bind, safe_exit, sys_exit, emit, halt, ret, raise.
  destruct sm, dev, module; simpl; eexists; reflexivity.
Qed.

Lemma halts_main w sm SHELLOPTS task : halts (main w sm SHELLOPTS task).
Proof.
  unfold main, main_body, session.
  do 7 (apply halts_bind; intros ?). apply halts_report.
Qed.

Lemma halts_dunder_main w argv task : halts (dunder_main w argv task).
Proof.
  unfold dunder_main.
  destruct ((1 <? length argv)%nat || SHELLMODE_at_import w).
  - do 2 (apply halts_bind; intros ?). apply halts_main.
  - apply halts_main.
Qed.

(** X21.  Every run ends the process, and the way it ends goes with the
    mode: [exit_json] and [fail_json] only in pipeline mode, [sys.exit]
    only in standalone mode; what is left is an exception nothing takes.
    Lines 117-127, 200-351. *)
Theorem exit_channel_by_mode w argv task :
  match fst (run (dunder_main w argv task)) with
  | Val _ => False
  | Stop (ExitJson _ _ _) | Stop (FailJson _) => standalone w argv = false
  | Stop (SysExit _) => standalone w argv = true
  | Stop (Uncaught _) => True
  end.
Proof.
  unfold run. destruct (ends_dunder_main w argv task []) as [suf [_ [_ K]]].
  destruct (halts_dunder_main w argv task []) as [s Hs].
  rewrite Hs in K |- *. destruct s; tauto.
Qed.

Lemma guarded_seen (tr : list event) : guarded true tr = true.
Proof. induction tr as [|e tr IH]; [reflexivity | exact IH]. Qed.

Lemma guarded_quiet (s1 s2 : list event) (seen : bool) :
  forallb not_traffic s1 = true ->
  guarded (seen || existsb is_login s1) s2 = true ->
  guarded seen (s1 ++ s2) = true.
Proof.
  revert seen. induction s1 as [|e s1 IH]; intros seen H1 H2.
  - simpl in H2. rewrite orb_false_r in H2. exact H2.
  - simpl in H1. apply andb_true_iff in H1 as [He H1].
    simpl. unfold not_traffic in He. rewrite He, orb_true_r. simpl.
    apply IH; [exact H1 |]. simpl in H2. rewrite orb_assoc in H2. exact H2.
Qed.

Lemma output_not_traffic (s : list event) :
  forallb is_output s = true -> forallb not_traffic s = true.
Proof.
  induction s as [|e s IH]; [reflexivity |]. simpl.
  intros H. apply andb_true_iff in H as [He H]. rewrite (IH H), andb_true_r.
  destruct e; first [reflexivity | discriminate He].
Qed.

Lemma guarded_sound (tr : list event) :
  forall seen pre e post,
    guarded seen tr = true -> tr = pre ++ e :: post -> is_traffic e = true ->
    seen = true \/ exists a, In (EvConnect a true) pre.
Proof.
  induction tr as [|x tr IH]; intros seen pre e post G E T.
  - destruct pre; discriminate.
  - simpl in G. apply andb_true_iff in G as [G1 G2].
    destruct pre as [|p pre]; simpl in E; injection E as -> E.
    + rewrite T in G1. simpl in G1. rewrite orb_false_r in G1. auto.
    + destruct (IH _ _ _ _ G2 E T) as [H | [a Ha]].
      * apply orb_true_iff in H as [H | H]; [auto |].
        right. destruct p as [| |a [|] | | | | |]; try discriminate.
        exists a. left. reflexivity.
      * right. exists a. right. exact Ha.
Qed.

Lemma guard_after_output {A B} (m : M A) (k : A -> M B) :
  spec m (only is_output any_stop) -> (forall a, spec (k a) keeps_guard) ->
  spec (bind m k) keeps_guard.
Proof.
  intros Hm Hk. eapply spec_bind; [exact Hm | exact Hk | |].
  - intros s1 a s2 r [H1 _] H2. unfold keeps_guard in *.
    apply guarded_quiet; [apply output_not_traffic, H1 |].
    destruct (existsb is_login s1); [apply guarded_seen | exact H2].
  - intros s1 s [H1 _]. unfold keeps_guard in *.
    rewrite <- (app_nil_r s1). apply guarded_quiet;
      [apply output_not_traffic, H1 | reflexivity].
Qed.

Lemma only_parse_loop cmdline :
  forall options, spec (parse_loop options cmdline) (only is_output any_stop).
Proof.
  induction cmdline as [|opt rest IH]; intros options; simpl.
  - apply only_ret.
  - apply only_bind; [repeat only_step | intros o; apply IH].
Qed.

Lemma only_parse_opts cmdline :
  spec (parse_opts cmdline) (only is_output any_stop).
Proof.
  unfold parse_opts. apply only_bind; [apply only_parse_loop | intros o].
  repeat only_step.
Qed.

(** [device_connect] sends nothing but logins, and returns only after
    one of them succeeded. *)
Lemma device_connect_logs_in w sm module dev rosdev tr :
  exists suf,
    snd (device_connect w sm module dev rosdev tr) = tr ++ suf
    /\ forallb not_traffic suf = true
    /\ (forall a, fst (device_connect w sm module dev rosdev tr) = Val a ->
                  existsb is_login suf = true).
Proof.
  unfold device_connect, device_connect_call, device_name, try_except, bind,
    getitem, call_logged, lift_raised, safe_fail, sys_exit, raise, halt,
    emit, ret.
  destruct sm; simpl;
    repeat match goal with
      | |- context [rosdev !! ?k] => destruct (rosdev !! k) eqn:?; simpl
      | |- context [ssh_connect ?w' ?t ?a] =>
          destruct (ssh_connect w' t a) eqn:?; simpl
      end;
    try (destruct dev, module; simpl);
    give_suffix; simpl; (split; [reflexivity |]); intros ? ?;
    first [discriminate | reflexivity].
Qed.

Lemma guard_session w sm rq rosdev changed :
  spec (session w sm rq rosdev changed) keeps_guard.
Proof.
  unfold session.
  eapply (spec_bind _ _
            (fun suf r => forallb not_traffic suf = true
                          /\ (forall a, r = Val a -> existsb is_login suf = true))
            (fun _ => only (fun _ => true) any_stop)).
  - intros tr.
    destruct (device_connect_logs_in w sm (rq_module rq) (Some sshclient)
                rosdev tr) as [suf (E & H1 & H2)].
    exists suf. auto.
  - intros _. repeat only_step.
  - intros s1 a s2 r [H1 H2] _. unfold keeps_guard.
    apply guarded_quiet; [exact H1 |].
    rewrite (H2 a eq_refl). apply guarded_seen.
  - intros s1 s [H1 _]. unfold keeps_guard.
    rewrite <- (app_nil_r s1). apply guarded_quiet; [exact H1 | reflexivity].
Qed.

Lemma guard_main w sm SHELLOPTS task :
  spec (main w sm SHELLOPTS task) keeps_guard.
Proof.
  unfold main. apply guard_after_output; [repeat only_step | intros rq].
  unfold main_body. apply guard_after_output; [repeat only_step | intros r].
  apply guard_session.
Qed.

Lemma guard_dunder_main w argv task :
  spec (dunder_main w argv task) keeps_guard.
Proof.
  unfold dunder_main.
  destruct ((1 <? length argv)%nat || SHELLMODE_at_import w);
    [| apply guard_main].
  apply guard_after_output; [repeat only_step | intros _].
  apply guard_after_output; [apply only_parse_opts | intros o].
  apply guard_main.
Qed.

(** X22.  In every run, a command sent to the device or a step of a file
    transfer comes after a login that succeeded.  Lines 155-178 and
    263-331. *)
Theorem no_traffic_before_login w argv task pre e post :
  snd (run (dunder_main w argv task)) = pre ++ e :: post ->
  is_traffic e = true ->
  exists a, In (EvConnect a true) pre.
Proof.
  intros E T. unfold run in E.
  destruct (guard_dunder_main w argv task []) as [suf [Es G]].
  rewrite Es in E. simpl in E.
  destruct (guarded_sound suf false pre e post G E T) as [H | H];
    [discriminate | exact H].
Qed.

Lemma no_traffic_before_login_witness :
  exists a,
    In (EvConnect a true)
       [EvConnect (ConnectArgs (VStr "192.0.2.1") (VStr "ansible") VNone
                     (VInt 22) (VInt 30) true true) true].
Proof.
  apply (no_traffic_before_login lab ["mikrotik_command.py"] reboot_task _
           (EvExec (VStr "export") 30)
           [EvExec (VStr "/system reboot") 30; EvExec (VStr "/export") 30;
            EvClose]);
    reflexivity.
Defined.


(** ** How a run ends *)

Lemma success_after_failures {A B} (m : M A) (k : A -> M B) :
  spec m (only any_event is_failure) -> (forall a, spec (k a) success_last) ->
  spec (bind m k) success_last.
Proof.
  intros Hm Hk. eapply spec_bind; [exact Hm | exact Hk | |].
  - intros s1 a s2 r _ H2. destruct r as [b|s]; [exact I |].
    intros Hs. destruct (H2 Hs) as (pre & response & [[-> ->] | (l & c & -> & ->)]);
      exists (s1 ++ pre), response; [left | right; exists l, c];
      rewrite app_assoc; auto.
  - intros s1 s [_ K] Hs. simpl in K. congruence.
Qed.

Lemma success_report sm module dev response changed :
  spec (report sm module (Some dev) response changed) success_last.
Proof.
  intros tr. unfold report, bind, safe_exit, sys_exit, emit, halt, ret, raise.
  destruct sm; simpl.
  - exists [EvClose; EvPrint response]. rewrite <- app_assoc.
    split; [reflexivity |]. intros _. exists [], response. left. auto.
  - destruct module; simpl.
    + exists [EvClose]. split; [reflexivity |]. intros _.
      exists [], response. right. eauto.
    + exists [EvClose]. split; [reflexivity |]. discriminate.
Qed.

Lemma failures_parse_loop cmdline :
  forall options,
    spec (parse_loop options cmdline) (only any_event is_failure).
Proof.
  induction cmdline as [|opt rest IH]; intros options; simpl.
  - apply only_ret.
  - apply only_bind; [repeat only_step | intros o; apply IH].
Qed.

Lemma failures_parse_opts cmdline :
  spec (parse_opts cmdline) (only any_event is_failure).
Proof.
  unfold parse_opts. apply only_bind; [apply failures_parse_loop | intros o].
  repeat only_step.
Qed.

Lemma success_session w sm rq rosdev changed :
  spec (session w sm rq rosdev changed) success_last.
Proof.
  unfold session.
  do 5 (apply success_after_failures; [repeat only_step | intros ?]).
  apply success_report.
Qed.

Lemma success_main w sm SHELLOPTS task :
  spec (main w sm SHELLOPTS task) success_last.
Proof.
  unfold main, main_body.
  do 2 (apply success_after_failures; [repeat only_step | intros ?]).
  apply success_session.
Qed.

Lemma success_dunder_main w argv task :
  spec (dunder_main w argv task) success_last.
Proof.
  unfold dunder_main.
  destruct ((1 <? length argv)%nat || SHELLMODE_at_import w);
    [| apply success_main].
  apply success_after_failures; [repeat only_step | intros _].
  apply success_after_failures; [apply failures_parse_opts | intros o].
  apply success_main.
Qed.

(** X23.  A run that ends with success has closed the device handle
    just before: [exit_json] comes right after the [close]; [sys.exit(0)]
    right after the [close] and the print of the response.
    Lines 333-344. *)
Theorem success_is_reported_last w argv task s tr :
  run (dunder_main w argv task) = (Stop s, tr) ->
  is_failure s = false ->
  exists pre response,
    (s = SysExit (ExitCode 0) /\ tr = pre ++ [EvClose; EvPrint response])
    \/ (exists lines changed,
          s = ExitJson response lines changed /\ tr = pre ++ [EvClose]).
Proof.
  intros H Hs. unfold run in H.
  destruct (success_dunder_main w argv task []) as [suf [E K]].
  rewrite H in E, K. simpl in E, K. subst tr. exact (K Hs).
Qed.

Lemma success_is_reported_last_witness :
  exists pre response,
    (SysExit (ExitCode 0) = SysExit (ExitCode 0)
     /\ [EvPrint banner;
         EvWrite "Opening SSH connection to router(192.0.2.1:22)... ";
         EvConnect (ConnectArgs (VStr "192.0.2.1") (VStr "admin") (VStr "")
                      (VInt 22) (VInt 30) true true) true;
         EvPrint "succes."; EvExec (VStr "export") 30;
         EvExec (VStr "/system reboot") 30; EvExec (VStr "/export") 30;
         EvClose; EvPrint ""]
        = pre ++ [EvClose; EvPrint response])
    \/ (exists lines changed,
          SysExit (ExitCode 0) = ExitJson response lines changed
          /\ [EvPrint banner;
              EvWrite "Opening SSH connection to router(192.0.2.1:22)... ";
              EvConnect (ConnectArgs (VStr "192.0.2.1") (VStr "admin")
                           (VStr "") (VInt 22) (VInt 30) true true) true;
              EvPrint "succes."; EvExec (VStr "export") 30;
              EvExec (VStr "/system reboot") 30; EvExec (VStr "/export") 30;
              EvClose; EvPrint ""]
             = pre ++ [EvClose]).
Proof.
  apply (success_is_reported_last lab reboot_argv ∅); reflexivity.
Defined.

(** X24.  No run closes the device handle more than once.
    Lines 117-127, 155-198, 200-344. *)
Theorem device_closed_at_most_once w argv task :
  (count is_close (snd (run (dunder_main w argv task))) <= 1)%nat.
Proof.
  unfold run. destruct (ends_dunder_main w argv task []) as [suf [E [_ K]]].
  destruct (halts_dunder_main w argv task []) as [s Hs].
  rewrite Hs in K. rewrite E. simpl.
  destruct s as [o l c|kw|arg|e]; simpl in K; lia.
Qed.
Lemma phase_outcome {A} (m : M A) :
  spec m (only any_event is_failure) ->
  forall tr r tr', m tr = (r, tr') ->
    exists suf, tr' = tr ++ suf
                /\ match r with
                   | Stop s => is_failure s = true
                   | Val _ => True
                   end.
Proof.
  intros H tr r tr' E. destruct (H tr) as [suf [Es [_ K]]].
  rewrite E in Es, K. exists suf. auto.
Qed.

Lemma failures_device_connect w sm module dev rosdev :
  spec (device_connect w sm module dev rosdev) (only any_event is_failure).
Proof. repeat only_step. Qed.

Lemma failures_sshcmd w sm module dev timeout command :
  spec (sshcmd w sm module dev timeout command) (only any_event is_failure).
Proof. repeat only_step. Qed.

Lemma failures_upload w sm module dev upload_file :
  spec (upload w sm module dev upload_file) (only any_event is_failure).
Proof. repeat only_step. Qed.

Lemma failures_execute w sm module dev rosdev upload_script upload_file
    command uploaded :
  spec (execute w sm module dev rosdev upload_script upload_file command
          uploaded) (only any_event is_failure).
Proof. repeat only_step. Qed.

(** X25.  In a session that ends with success with [test_change] on,
    the command [export] is the first to go to the device after the
    logins, and [/export] the last: whatever is uploaded or run lies
    between the two dumps.  Lines 263-331. *)
Theorem snapshots_bracket_the_session w sm rq rosdev changed tr s tr' :
  session w sm rq rosdev changed tr = (Stop s, tr') ->
  is_failure s = false ->
  truthy (rq_test_change rq) = true ->
  exists logins mid tail,
    tr' = tr ++ logins ++ [EvExec (VStr "export") cmd_timeout] ++ mid
             ++ [EvExec (VStr "/export") cmd_timeout] ++ tail
    /\ forallb not_traffic logins = true
    /\ forallb not_traffic tail = true.
Proof.
  intros H Hs Htc. unfold session in H. rewrite Htc in H.
  set (module := rq_module rq) in *. set (dev := Some sshclient) in *.
  unfold bind at 1 in H.
  destruct (device_connect_logs_in w sm module dev rosdev tr)
    as [logins (E1 & Hlog & _)].
  destruct (device_connect w sm module dev rosdev tr) as [[u|s0] tr1] eqn:D1.
  2:{ injection H as <- <-.
      destruct (phase_outcome _ (failures_device_connect _ _ _ _ _) _ _ _ D1)
        as [? [_ K]].
      congruence. }
  simpl in E1. subst tr1.
  unfold bind at 1 in H. unfold bind at 1 in H.
  destruct (sshcmd w sm module dev cmd_timeout (VStr "export") (tr ++ logins))
    as [[b|s0] tr2] eqn:D2.
  2:{ injection H as <- <-.
      destruct (phase_outcome _ (failures_sshcmd _ _ _ _ _ _) _ _ _ D2)
        as [? [_ K]].
      congruence. }
  destruct (sshcmd_returns_inv _ _ _ _ _ _ _ _ _ D2) as (-> & _).
  unfold ret at 1 in H. unfold bind at 1 in H.
  destruct (upload w sm module dev (rq_upload_file rq) _) as [[up|s0] tr3] eqn:D3.
  2:{ injection H as <- <-.
      destruct (phase_outcome _ (failures_upload _ _ _ _ _) _ _ _ D3)
        as [? [_ K]].
      congruence. }
  destruct (phase_outcome _ (failures_upload _ _ _ _ _) _ _ _ D3)
    as [su [-> _]].
  unfold bind at 1 in H.
  destruct (execute w sm module dev rosdev _ _ _ up _) as [[resp|s0] tr4] eqn:D4.
  2:{ injection H as <- <-.
      destruct (phase_outcome _ (failures_execute _ _ _ _ _ _ _ _ _) _ _ _ D4)
        as [? [_ K]].
      congruence. }
  destruct (phase_outcome _ (failures_execute _ _ _ _ _ _ _ _ _) _ _ _ D4)
    as [se [-> _]].
  unfold bind at 1 in H. unfold detect_change in H. rewrite Htc in H.
  unfold bind at 1 in H.
  destruct (sshcmd w sm module dev cmd_timeout (VStr "/export") _)
    as [[after|s0] tr5] eqn:D5.
  2:{ injection H as <- <-.
      destruct (phase_outcome _ (failures_sshcmd _ _ _ _ _ _) _ _ _ D5)
        as [? [_ K]].
      congruence. }
  destruct (sshcmd_returns_inv _ _ _ _ _ _ _ _ _ D5) as (-> & _).
  unfold bind at 1 in H. unfold ret at 1 in H.
  exists logins, (su ++ se).
  revert H. unfold report, bind, safe_exit, sys_exit, emit, halt, ret, raise.
  destruct sm; simpl.
  - intros [= <- <-]. exists [EvClose; EvPrint resp].
    split; [| auto]. rewrite <- !app_assoc. reflexivity.
  - destruct module; simpl; intros [= <- <-]; [| discriminate Hs].
    exists [EvClose]. split; [| auto]. rewrite <- !app_assoc. reflexivity.
Qed.

Lemma snapshots_bracket_the_session_witness :
  exists logins mid tail,
    [EvConnect (login_args true true) true; EvExec (VStr "export") 30;
     EvExec (VStr "/ip service print") 30; EvExec (VStr "/export") 30;
     EvClose]
    = [] ++ logins ++ [EvExec (VStr "export") cmd_timeout] ++ mid
         ++ [EvExec (VStr "/export") cmd_timeout] ++ tail
    /\ forallb not_traffic logins = true
    /\ forallb not_traffic tail = true.
Proof.
  apply (snapshots_bracket_the_session stable_world false (print_request true)
           login_rosdev false [] (ExitJson "" [] false));
    reflexivity.
Defined.
